(** * sherpa-onnx: the offline recognizer configuration and dispatch layer

    A shallow embedding of
    [sherpa-onnx/python/sherpa_onnx/offline_recognizer.py]: the nine
    [from_*] class methods of [OfflineRecognizer], the three stream
    methods, and the helper [_assert_file_exists].

    The extension module [_sherpa_onnx] (the inference engine and the
    configuration classes it exports) is not part of the Python layer.  The
    configuration classes are modelled by the keyword arguments the source
    passes to them; the engine is an interface ([Engine]) whose constructor
    may accept or refuse a configuration. *)

From Stdlib Require Import ZArith String List Bool Lia PrimFloat.
From stdpp Require Import base option list strings.

Open Scope string_scope.
Set Warnings "-inexact-float".

(** Python [float] values are only stored by this layer, never computed
    with: they are binary64 numbers. *)
Definition float : Set := PrimFloat.float.

(** ** Python strings *)

(** [len(s) > 0] *)
Definition len_positive (s : string) : bool := (0 <? String.length s)%nat.

(** Truth value of a string in a condition ([if lm and ...]). *)
Definition truthy (s : string) : bool :=
  match s with
  | EmptyString => false
  | String _ _ => true
  end.

(** [a != b] on strings. *)
Definition str_ne (a b : string) : bool := negb (String.eqb a b).

(** ** Configuration classes exported by [_sherpa_onnx]

    Every class is built by keyword arguments.  A field of type [option]
    is a keyword that some recipe leaves out: [None] stands for "not
    passed", so that the default of the binding applies. *)

Module FeatureExtractorConfig.
Record t := mk { sampling_rate : Z; feature_dim : Z }.
End FeatureExtractorConfig.

Module OfflineTransducerModelConfig.
Record t := mk {
  encoder_filename : string;
  decoder_filename : string;
  joiner_filename : string }.
End OfflineTransducerModelConfig.

Module OfflineSenseVoiceModelConfig.
Record t := mk { model : string; language : string; use_itn : bool }.
End OfflineSenseVoiceModelConfig.

Module OfflineParaformerModelConfig.
Record t := mk { model : string }.
End OfflineParaformerModelConfig.

Module OfflineNemoEncDecCtcModelConfig.
Record t := mk { model : string }.
End OfflineNemoEncDecCtcModelConfig.

Module OfflineWhisperModelConfig.
Record t := mk {
  encoder : string;
  decoder : string;
  language : string;
  task : string;
  tail_paddings : Z }.
End OfflineWhisperModelConfig.

Module OfflineMoonshineModelConfig.
Record t := mk {
  preprocessor : string;
  encoder : string;
  uncached_decoder : string;
  cached_decoder : string }.
End OfflineMoonshineModelConfig.

Module OfflineTdnnModelConfig.
Record t := mk { model : string }.
End OfflineTdnnModelConfig.

Module OfflineWenetCtcModelConfig.
Record t := mk { model : string }.
End OfflineWenetCtcModelConfig.

(** [OfflineModelConfig(...)]: one field per keyword that the source
    passes.  The classes [OfflineZipformerCtcModelConfig] and
    [OfflineCtcFstDecoderConfig] are imported by the source and never
    instantiated, so no keyword for them occurs. *)
Module OfflineModelConfig.
Record t := mk {
  transducer : option OfflineTransducerModelConfig.t;
  sense_voice : option OfflineSenseVoiceModelConfig.t;
  paraformer : option OfflineParaformerModelConfig.t;
  telespeech_ctc : option string;
  nemo_ctc : option OfflineNemoEncDecCtcModelConfig.t;
  whisper : option OfflineWhisperModelConfig.t;
  moonshine : option OfflineMoonshineModelConfig.t;
  tdnn : option OfflineTdnnModelConfig.t;
  wenet_ctc : option OfflineWenetCtcModelConfig.t;
  tokens : string;
  num_threads : Z;
  debug : bool;
  provider : string;
  modeling_unit : option string;
  bpe_vocab : option string;
  model_type : option string }.
End OfflineModelConfig.

Module OfflineLMConfig.
Record t := mk {
  model : string;
  scale : float;
  lm_num_threads : Z;
  lm_provider : string }.
End OfflineLMConfig.

Module OfflineRecognizerConfig.
Record t := mk {
  feat_config : FeatureExtractorConfig.t;
  model_config : OfflineModelConfig.t;
  lm_config : option OfflineLMConfig.t;
  decoding_method : string;
  max_active_paths : option Z;
  hotwords_file : option string;
  hotwords_score : option float;
  blank_penalty : option float;
  rule_fsts : string;
  rule_fars : string }.
End OfflineRecognizerConfig.

(** ** Arguments of the recipes

    One record per class method, with the parameters of its signature in
    order; [defaults] fills in the default values of the signature. *)

Module Transducer.
Record Args := mk {
  encoder : string; decoder : string; joiner : string; tokens : string;
  num_threads : Z; sample_rate : Z; feature_dim : Z;
  decoding_method : string; max_active_paths : Z;
  hotwords_file : string; hotwords_score : float; blank_penalty : float;
  modeling_unit : string; bpe_vocab : string;
  debug : bool; provider : string; model_type : string;
  rule_fsts : string; rule_fars : string;
  lm : string; lm_scale : float }.
Definition defaults (encoder decoder joiner tokens : string) : Args :=
  mk encoder decoder joiner tokens 1 16000 80 "greedy_search" 4
     "" 1.5%float 0.0%float "cjkchar" "" false "cpu" "transducer"
     "" "" "" 0.1%float.
End Transducer.

Module SenseVoice.
Record Args := mk {
  model : string; tokens : string;
  num_threads : Z; sample_rate : Z; feature_dim : Z;
  decoding_method : string; debug : bool; provider : string;
  language : string; use_itn : bool;
  rule_fsts : string; rule_fars : string }.
Definition defaults (model tokens : string) : Args :=
  mk model tokens 1 16000 80 "greedy_search" false "cpu" "" false "" "".
End SenseVoice.

Module Paraformer.
Record Args := mk {
  paraformer : string; tokens : string;
  num_threads : Z; sample_rate : Z; feature_dim : Z;
  decoding_method : string; debug : bool; provider : string;
  rule_fsts : string; rule_fars : string }.
Definition defaults (paraformer tokens : string) : Args :=
  mk paraformer tokens 1 16000 80 "greedy_search" false "cpu" "" "".
End Paraformer.

Module TelespeechCtc.
Record Args := mk {
  model : string; tokens : string;
  num_threads : Z; sample_rate : Z; feature_dim : Z;
  decoding_method : string; debug : bool; provider : string;
  rule_fsts : string; rule_fars : string }.
Definition defaults (model tokens : string) : Args :=
  mk model tokens 1 16000 40 "greedy_search" false "cpu" "" "".
End TelespeechCtc.

Module NemoCtc.
Record Args := mk {
  model : string; tokens : string;
  num_threads : Z; sample_rate : Z; feature_dim : Z;
  decoding_method : string; debug : bool; provider : string;
  rule_fsts : string; rule_fars : string }.
Definition defaults (model tokens : string) : Args :=
  mk model tokens 1 16000 80 "greedy_search" false "cpu" "" "".
End NemoCtc.

Module Whisper.
Record Args := mk {
  encoder : string; decoder : string; tokens : string;
  language : string; task : string;
  num_threads : Z; decoding_method : string;
  debug : bool; provider : string; tail_paddings : Z;
  rule_fsts : string; rule_fars : string }.
Definition defaults (encoder decoder tokens : string) : Args :=
  mk encoder decoder tokens "en" "transcribe" 1 "greedy_search"
     false "cpu" (-1) "" "".
End Whisper.

Module Moonshine.
Record Args := mk {
  preprocessor : string; encoder : string;
  uncached_decoder : string; cached_decoder : string; tokens : string;
  num_threads : Z; decoding_method : string;
  debug : bool; provider : string;
  rule_fsts : string; rule_fars : string }.
Definition defaults
    (preprocessor encoder uncached_decoder cached_decoder tokens : string)
    : Args :=
  mk preprocessor encoder uncached_decoder cached_decoder tokens
     1 "greedy_search" false "cpu" "" "".
End Moonshine.

Module TdnnCtc.
Record Args := mk {
  model : string; tokens : string;
  num_threads : Z; sample_rate : Z; feature_dim : Z;
  decoding_method : string; debug : bool; provider : string;
  rule_fsts : string; rule_fars : string }.
Definition defaults (model tokens : string) : Args :=
  mk model tokens 1 8000 23 "greedy_search" false "cpu" "" "".
End TdnnCtc.

Module WenetCtc.
Record Args := mk {
  model : string; tokens : string;
  num_threads : Z; sample_rate : Z; feature_dim : Z;
  decoding_method : string; debug : bool; provider : string;
  rule_fsts : string; rule_fars : string }.
Definition defaults (model tokens : string) : Args :=
  mk model tokens 1 16000 80 "greedy_search" false "cpu" "" "".
End WenetCtc.

(** ** The engine interface and the world

    [_Recognizer(config)] either yields an engine handle or fails with an
    engine error; which one is the engine's business.  [engine_recognize]
    is the decode pipeline of the engine for one stream: it reads the
    stream's hotword override and the audio appended to it. *)

Class Engine := {
  handle : Type;
  engine_error : Type;
  sample : Type;
  result : Type;
  engine_new : OfflineRecognizerConfig.t -> engine_error + handle;
  engine_recognize : handle -> option string -> list sample -> result }.

(** [Path(f).is_file()] *)
Class FileSystem := { is_file : string -> bool }.

(** Exceptions that leave a recipe. *)
Inductive exn `{Engine} :=
| ValueError (msg : string)
| AssertionError (msg : string)
| EngineError (e : engine_error).

(** Streams are objects of the engine, held by reference: a stream is
    named by its index in the heap. *)
Abbreviation stream_ref := nat.

Section Layer.
Context `{Eng : Engine} `{FS : FileSystem}.

Record OfflineStream := {
  stream_hotwords : option string;
  stream_samples : list sample;
  stream_result : option result }.

(** Calls that cross into the engine, in the order they are made. *)
Inductive EngineCall :=
| NewRecognizer (cfg : OfflineRecognizerConfig.t)
| CreateStream (h : handle)
| CreateStreamWithHotwords (h : handle) (hotwords : string)
| DecodeStream (h : handle) (s : stream_ref)
| DecodeStreams (h : handle) (ss : list stream_ref).

Record World := {
  engine_calls : list EngineCall;
  heap : list OfflineStream }.

Definition log (c : EngineCall) (w : World) : World :=
  {| engine_calls := engine_calls w ++ [c]; heap := heap w |}.

(** *** State and exception monad *)

Definition M (A : Type) : Type := World -> (exn + A) * World.

#[export] Instance M_ret : MRet M := fun A a w => (inr a, w).

#[export] Instance M_bind : MBind M := fun A B k m w =>
  match m w with
  | (inl e, w') => (inl e, w')
  | (inr a, w') => k a w'
  end.

Definition raise {A} (e : exn) : M A := fun w => (inl e, w).

(** [if c: raise e] *)
Definition raise_if (c : bool) (e : exn) : M unit :=
  if c then raise e else mret tt.

(** *** [_assert_file_exists] *)
Definition _assert_file_exists (f : string) : M unit :=
  raise_if (negb (is_file f)) (AssertionError (f ++ " does not exist")).

(** *** [_Recognizer(config)]: the constructor of the engine *)
Definition _Recognizer (cfg : OfflineRecognizerConfig.t) : M handle :=
  fun w =>
    match engine_new cfg with
    | inl e => (inl (EngineError e), log (NewRecognizer cfg) w)
    | inr h => (inr h, log (NewRecognizer cfg) w)
    end.

(** Instances of the Python class [OfflineRecognizer]. *)
Record OfflineRecognizer := {
  recognizer : handle;
  config : OfflineRecognizerConfig.t }.

(** ** The nine recipes *)

Definition from_transducer (a : Transducer.Args) : M OfflineRecognizer :=
  let 'Transducer.mk encoder decoder joiner tokens num_threads sample_rate
         feature_dim decoding_method max_active_paths hotwords_file
         hotwords_score blank_penalty modeling_unit bpe_vocab debug provider
         model_type rule_fsts rule_fars lm lm_scale := a in
  let model_config :=
    {| OfflineModelConfig.transducer :=
         Some {| OfflineTransducerModelConfig.encoder_filename := encoder;
                 OfflineTransducerModelConfig.decoder_filename := decoder;
                 OfflineTransducerModelConfig.joiner_filename := joiner |};
       OfflineModelConfig.tokens := tokens;
       OfflineModelConfig.num_threads := num_threads;
       OfflineModelConfig.debug := debug;
       OfflineModelConfig.provider := provider;
       OfflineModelConfig.modeling_unit := Some modeling_unit;
       OfflineModelConfig.bpe_vocab := Some bpe_vocab;
       OfflineModelConfig.model_type := Some model_type;
       OfflineModelConfig.sense_voice := None;
       OfflineModelConfig.paraformer := None;
       OfflineModelConfig.telespeech_ctc := None;
       OfflineModelConfig.nemo_ctc := None;
       OfflineModelConfig.whisper := None;
       OfflineModelConfig.moonshine := None;
       OfflineModelConfig.tdnn := None;
       OfflineModelConfig.wenet_ctc := None |} in
  let feat_config :=
    {| FeatureExtractorConfig.sampling_rate := sample_rate;
       FeatureExtractorConfig.feature_dim := feature_dim |} in
  raise_if
    (len_positive hotwords_file
     && str_ne decoding_method "modified_beam_search")
    (ValueError
       ("Please use --decoding-method=modified_beam_search when using "
        ++ "--hotwords-file. Currently given: " ++ decoding_method)) ;;
  raise_if
    (truthy lm && str_ne decoding_method "modified_beam_search")
    (ValueError
       ("Please use --decoding-method=modified_beam_search when using "
        ++ "--lm. Currently given: " ++ decoding_method)) ;;
  let lm_config :=
    {| OfflineLMConfig.model := lm;
       OfflineLMConfig.scale := lm_scale;
       OfflineLMConfig.lm_num_threads := num_threads;
       OfflineLMConfig.lm_provider := provider |} in
  let recognizer_config :=
    {| OfflineRecognizerConfig.feat_config := feat_config;
       OfflineRecognizerConfig.model_config := model_config;
       OfflineRecognizerConfig.lm_config := Some lm_config;
       OfflineRecognizerConfig.decoding_method := decoding_method;
       OfflineRecognizerConfig.max_active_paths := Some max_active_paths;
       OfflineRecognizerConfig.hotwords_file := Some hotwords_file;
       OfflineRecognizerConfig.hotwords_score := Some hotwords_score;
       OfflineRecognizerConfig.blank_penalty := Some blank_penalty;
       OfflineRecognizerConfig.rule_fsts := rule_fsts;
       OfflineRecognizerConfig.rule_fars := rule_fars |} in
  recognizer ← _Recognizer recognizer_config;
  mret {| recognizer := recognizer; config := recognizer_config |}.

Definition from_sense_voice (a : SenseVoice.Args) : M OfflineRecognizer :=
  let 'SenseVoice.mk model tokens num_threads sample_rate feature_dim
        decoding_method debug provider language use_itn rule_fsts
        rule_fars := a in
  let model_config :=
    {| OfflineModelConfig.sense_voice :=
         Some {| OfflineSenseVoiceModelConfig.model := model;
                 OfflineSenseVoiceModelConfig.language := language;
                 OfflineSenseVoiceModelConfig.use_itn := use_itn |};
       OfflineModelConfig.tokens := tokens;
       OfflineModelConfig.num_threads := num_threads;
       OfflineModelConfig.debug := debug;
       OfflineModelConfig.provider := provider;
       OfflineModelConfig.model_type := None;
       OfflineModelConfig.modeling_unit := None;
       OfflineModelConfig.bpe_vocab := None;
       OfflineModelConfig.transducer := None;
       OfflineModelConfig.paraformer := None;
       OfflineModelConfig.telespeech_ctc := None;
       OfflineModelConfig.nemo_ctc := None;
       OfflineModelConfig.whisper := None;
       OfflineModelConfig.moonshine := None;
       OfflineModelConfig.tdnn := None;
       OfflineModelConfig.wenet_ctc := None |} in
  let feat_config :=
    {| FeatureExtractorConfig.sampling_rate := sample_rate;
       FeatureExtractorConfig.feature_dim := feature_dim |} in
  let recognizer_config :=
    {| OfflineRecognizerConfig.feat_config := feat_config;
       OfflineRecognizerConfig.model_config := model_config;
       OfflineRecognizerConfig.decoding_method := decoding_method;
       OfflineRecognizerConfig.rule_fsts := rule_fsts;
       OfflineRecognizerConfig.rule_fars := rule_fars;
       OfflineRecognizerConfig.lm_config := None;
       OfflineRecognizerConfig.max_active_paths := None;
       OfflineRecognizerConfig.hotwords_file := None;
       OfflineRecognizerConfig.hotwords_score := None;
       OfflineRecognizerConfig.blank_penalty := None |} in
  recognizer ← _Recognizer recognizer_config;
  mret {| recognizer := recognizer; config := recognizer_config |}.

Definition from_paraformer (a : Paraformer.Args) : M OfflineRecognizer :=
  let 'Paraformer.mk paraformer tokens num_threads sample_rate feature_dim
        decoding_method debug provider rule_fsts rule_fars := a in
  let model_config :=
    {| OfflineModelConfig.paraformer :=
         Some {| OfflineParaformerModelConfig.model := paraformer |};
       OfflineModelConfig.tokens := tokens;
       OfflineModelConfig.num_threads := num_threads;
       OfflineModelConfig.debug := debug;
       OfflineModelConfig.provider := provider;
       OfflineModelConfig.model_type := Some "paraformer";
       OfflineModelConfig.modeling_unit := None;
       OfflineModelConfig.bpe_vocab := None;
       OfflineModelConfig.transducer := None;
       OfflineModelConfig.sense_voice := None;
       OfflineModelConfig.telespeech_ctc := None;
       OfflineModelConfig.nemo_ctc := None;
       OfflineModelConfig.whisper := None;
       OfflineModelConfig.moonshine := None;
       OfflineModelConfig.tdnn := None;
       OfflineModelConfig.wenet_ctc := None |} in
  let feat_config :=
    {| FeatureExtractorConfig.sampling_rate := sample_rate;
       FeatureExtractorConfig.feature_dim := feature_dim |} in
  let recognizer_config :=
    {| OfflineRecognizerConfig.feat_config := feat_config;
       OfflineRecognizerConfig.model_config := model_config;
       OfflineRecognizerConfig.decoding_method := decoding_method;
       OfflineRecognizerConfig.rule_fsts := rule_fsts;
       OfflineRecognizerConfig.rule_fars := rule_fars;
       OfflineRecognizerConfig.lm_config := None;
       OfflineRecognizerConfig.max_active_paths := None;
       OfflineRecognizerConfig.hotwords_file := None;
       OfflineRecognizerConfig.hotwords_score := None;
       OfflineRecognizerConfig.blank_penalty := None |} in
  recognizer ← _Recognizer recognizer_config;
  mret {| recognizer := recognizer; config := recognizer_config |}.

Definition from_telespeech_ctc (a : TelespeechCtc.Args) : M OfflineRecognizer :=
  let 'TelespeechCtc.mk model tokens num_threads sample_rate feature_dim
        decoding_method debug provider rule_fsts rule_fars := a in
  let model_config :=
    {| OfflineModelConfig.telespeech_ctc :=
         Some model;
       OfflineModelConfig.tokens := tokens;
       OfflineModelConfig.num_threads := num_threads;
       OfflineModelConfig.debug := debug;
       OfflineModelConfig.provider := provider;
       OfflineModelConfig.model_type := Some "nemo_ctc";
       OfflineModelConfig.modeling_unit := None;
       OfflineModelConfig.bpe_vocab := None;
       OfflineModelConfig.transducer := None;
       OfflineModelConfig.sense_voice := None;
       OfflineModelConfig.paraformer := None;
       OfflineModelConfig.nemo_ctc := None;
       OfflineModelConfig.whisper := None;
       OfflineModelConfig.moonshine := None;
       OfflineModelConfig.tdnn := None;
       OfflineModelConfig.wenet_ctc := None |} in
  let feat_config :=
    {| FeatureExtractorConfig.sampling_rate := sample_rate;
       FeatureExtractorConfig.feature_dim := feature_dim |} in
  let recognizer_config :=
    {| OfflineRecognizerConfig.feat_config := feat_config;
       OfflineRecognizerConfig.model_config := model_config;
       OfflineRecognizerConfig.decoding_method := decoding_method;
       OfflineRecognizerConfig.rule_fsts := rule_fsts;
       OfflineRecognizerConfig.rule_fars := rule_fars;
       OfflineRecognizerConfig.lm_config := None;
       OfflineRecognizerConfig.max_active_paths := None;
       OfflineRecognizerConfig.hotwords_file := None;
       OfflineRecognizerConfig.hotwords_score := None;
       OfflineRecognizerConfig.blank_penalty := None |} in
  recognizer ← _Recognizer recognizer_config;
  mret {| recognizer := recognizer; config := recognizer_config |}.

Definition from_nemo_ctc (a : NemoCtc.Args) : M OfflineRecognizer :=
  let 'NemoCtc.mk model tokens num_threads sample_rate feature_dim
        decoding_method debug provider rule_fsts rule_fars := a in
  let model_config :=
    {| OfflineModelConfig.nemo_ctc :=
         Some {| OfflineNemoEncDecCtcModelConfig.model := model |};
       OfflineModelConfig.tokens := tokens;
       OfflineModelConfig.num_threads := num_threads;
       OfflineModelConfig.debug := debug;
       OfflineModelConfig.provider := provider;
       OfflineModelConfig.model_type := Some "nemo_ctc";
       OfflineModelConfig.modeling_unit := None;
       OfflineModelConfig.bpe_vocab := None;
       OfflineModelConfig.transducer := None;
       OfflineModelConfig.sense_voice := None;
       OfflineModelConfig.paraformer := None;
       OfflineModelConfig.telespeech_ctc := None;
       OfflineModelConfig.whisper := None;
       OfflineModelConfig.moonshine := None;
       OfflineModelConfig.tdnn := None;
       OfflineModelConfig.wenet_ctc := None |} in
  let feat_config :=
    {| FeatureExtractorConfig.sampling_rate := sample_rate;
       FeatureExtractorConfig.feature_dim := feature_dim |} in
  let recognizer_config :=
    {| OfflineRecognizerConfig.feat_config := feat_config;
       OfflineRecognizerConfig.model_config := model_config;
       OfflineRecognizerConfig.decoding_method := decoding_method;
       OfflineRecognizerConfig.rule_fsts := rule_fsts;
       OfflineRecognizerConfig.rule_fars := rule_fars;
       OfflineRecognizerConfig.lm_config := None;
       OfflineRecognizerConfig.max_active_paths := None;
       OfflineRecognizerConfig.hotwords_file := None;
       OfflineRecognizerConfig.hotwords_score := None;
       OfflineRecognizerConfig.blank_penalty := None |} in
  recognizer ← _Recognizer recognizer_config;
  mret {| recognizer := recognizer; config := recognizer_config |}.

Definition from_whisper (a : Whisper.Args) : M OfflineRecognizer :=
  let 'Whisper.mk encoder decoder tokens language task num_threads
        decoding_method debug provider tail_paddings rule_fsts rule_fars
         := a in
  let model_config :=
    {| OfflineModelConfig.whisper :=
         Some {| OfflineWhisperModelConfig.encoder := encoder;
                 OfflineWhisperModelConfig.decoder := decoder;
                 OfflineWhisperModelConfig.language := language;
                 OfflineWhisperModelConfig.task := task;
                 OfflineWhisperModelConfig.tail_paddings := tail_paddings |};
       OfflineModelConfig.tokens := tokens;
       OfflineModelConfig.num_threads := num_threads;
       OfflineModelConfig.debug := debug;
       OfflineModelConfig.provider := provider;
       OfflineModelConfig.model_type := Some "whisper";
       OfflineModelConfig.modeling_unit := None;
       OfflineModelConfig.bpe_vocab := None;
       OfflineModelConfig.transducer := None;
       OfflineModelConfig.sense_voice := None;
       OfflineModelConfig.paraformer := None;
       OfflineModelConfig.telespeech_ctc := None;
       OfflineModelConfig.nemo_ctc := None;
       OfflineModelConfig.moonshine := None;
       OfflineModelConfig.tdnn := None;
       OfflineModelConfig.wenet_ctc := None |} in
  let feat_config :=
    {| FeatureExtractorConfig.sampling_rate := 16000;
       FeatureExtractorConfig.feature_dim := 80 |} in
  let recognizer_config :=
    {| OfflineRecognizerConfig.feat_config := feat_config;
       OfflineRecognizerConfig.model_config := model_config;
       OfflineRecognizerConfig.decoding_method := decoding_method;
       OfflineRecognizerConfig.rule_fsts := rule_fsts;
       OfflineRecognizerConfig.rule_fars := rule_fars;
       OfflineRecognizerConfig.lm_config := None;
       OfflineRecognizerConfig.max_active_paths := None;
       OfflineRecognizerConfig.hotwords_file := None;
       OfflineRecognizerConfig.hotwords_score := None;
       OfflineRecognizerConfig.blank_penalty := None |} in
  recognizer ← _Recognizer recognizer_config;
  mret {| recognizer := recognizer; config := recognizer_config |}.

Definition from_moonshine (a : Moonshine.Args) : M OfflineRecognizer :=
  let 'Moonshine.mk preprocessor encoder uncached_decoder cached_decoder
        tokens num_threads decoding_method debug provider rule_fsts
        rule_fars := a in
  let model_config :=
    {| OfflineModelConfig.moonshine :=
         Some {| OfflineMoonshineModelConfig.preprocessor := preprocessor;
                 OfflineMoonshineModelConfig.encoder := encoder;
                 OfflineMoonshineModelConfig.uncached_decoder :=
                   uncached_decoder;
                 OfflineMoonshineModelConfig.cached_decoder :=
                   cached_decoder |};
       OfflineModelConfig.tokens := tokens;
       OfflineModelConfig.num_threads := num_threads;
       OfflineModelConfig.debug := debug;
       OfflineModelConfig.provider := provider;
       OfflineModelConfig.model_type := None;
       OfflineModelConfig.modeling_unit := None;
       OfflineModelConfig.bpe_vocab := None;
       OfflineModelConfig.transducer := None;
       OfflineModelConfig.sense_voice := None;
       OfflineModelConfig.paraformer := None;
       OfflineModelConfig.telespeech_ctc := None;
       OfflineModelConfig.nemo_ctc := None;
       OfflineModelConfig.whisper := None;
       OfflineModelConfig.tdnn := None;
       OfflineModelConfig.wenet_ctc := None |} in
  let unused_feat_config :=
    {| FeatureExtractorConfig.sampling_rate := 16000;
       FeatureExtractorConfig.feature_dim := 80 |} in
  let recognizer_config :=
    {| OfflineRecognizerConfig.model_config := model_config;
       OfflineRecognizerConfig.feat_config := unused_feat_config;
       OfflineRecognizerConfig.decoding_method := decoding_method;
       OfflineRecognizerConfig.rule_fsts := rule_fsts;
       OfflineRecognizerConfig.rule_fars := rule_fars;
       OfflineRecognizerConfig.lm_config := None;
       OfflineRecognizerConfig.max_active_paths := None;
       OfflineRecognizerConfig.hotwords_file := None;
       OfflineRecognizerConfig.hotwords_score := None;
       OfflineRecognizerConfig.blank_penalty := None |} in
  recognizer ← _Recognizer recognizer_config;
  mret {| recognizer := recognizer; config := recognizer_config |}.

Definition from_tdnn_ctc (a : TdnnCtc.Args) : M OfflineRecognizer :=
  let 'TdnnCtc.mk model tokens num_threads sample_rate feature_dim
        decoding_method debug provider rule_fsts rule_fars := a in
  let model_config :=
    {| OfflineModelConfig.tdnn :=
         Some {| OfflineTdnnModelConfig.model := model |};
       OfflineModelConfig.tokens := tokens;
       OfflineModelConfig.num_threads := num_threads;
       OfflineModelConfig.debug := debug;
       OfflineModelConfig.provider := provider;
       OfflineModelConfig.model_type := Some "tdnn";
       OfflineModelConfig.modeling_unit := None;
       OfflineModelConfig.bpe_vocab := None;
       OfflineModelConfig.transducer := None;
       OfflineModelConfig.sense_voice := None;
       OfflineModelConfig.paraformer := None;
       OfflineModelConfig.telespeech_ctc := None;
       OfflineModelConfig.nemo_ctc := None;
       OfflineModelConfig.whisper := None;
       OfflineModelConfig.moonshine := None;
       OfflineModelConfig.wenet_ctc := None |} in
  let feat_config :=
    {| FeatureExtractorConfig.sampling_rate := sample_rate;
       FeatureExtractorConfig.feature_dim := feature_dim |} in
  let recognizer_config :=
    {| OfflineRecognizerConfig.feat_config := feat_config;
       OfflineRecognizerConfig.model_config := model_config;
       OfflineRecognizerConfig.decoding_method := decoding_method;
       OfflineRecognizerConfig.rule_fsts := rule_fsts;
       OfflineRecognizerConfig.rule_fars := rule_fars;
       OfflineRecognizerConfig.lm_config := None;
       OfflineRecognizerConfig.max_active_paths := None;
       OfflineRecognizerConfig.hotwords_file := None;
       OfflineRecognizerConfig.hotwords_score := None;
       OfflineRecognizerConfig.blank_penalty := None |} in
  recognizer ← _Recognizer recognizer_config;
  mret {| recognizer := recognizer; config := recognizer_config |}.

Definition from_wenet_ctc (a : WenetCtc.Args) : M OfflineRecognizer :=
  let 'WenetCtc.mk model tokens num_threads sample_rate feature_dim
        decoding_method debug provider rule_fsts rule_fars := a in
  let model_config :=
    {| OfflineModelConfig.wenet_ctc :=
         Some {| OfflineWenetCtcModelConfig.model := model |};
       OfflineModelConfig.tokens := tokens;
       OfflineModelConfig.num_threads := num_threads;
       OfflineModelConfig.debug := debug;
       OfflineModelConfig.provider := provider;
       OfflineModelConfig.model_type := Some "wenet_ctc";
       OfflineModelConfig.modeling_unit := None;
       OfflineModelConfig.bpe_vocab := None;
       OfflineModelConfig.transducer := None;
       OfflineModelConfig.sense_voice := None;
       OfflineModelConfig.paraformer := None;
       OfflineModelConfig.telespeech_ctc := None;
       OfflineModelConfig.nemo_ctc := None;
       OfflineModelConfig.whisper := None;
       OfflineModelConfig.moonshine := None;
       OfflineModelConfig.tdnn := None |} in
  let feat_config :=
    {| FeatureExtractorConfig.sampling_rate := sample_rate;
       FeatureExtractorConfig.feature_dim := feature_dim |} in
  let recognizer_config :=
    {| OfflineRecognizerConfig.feat_config := feat_config;
       OfflineRecognizerConfig.model_config := model_config;
       OfflineRecognizerConfig.decoding_method := decoding_method;
       OfflineRecognizerConfig.rule_fsts := rule_fsts;
       OfflineRecognizerConfig.rule_fars := rule_fars;
       OfflineRecognizerConfig.lm_config := None;
       OfflineRecognizerConfig.max_active_paths := None;
       OfflineRecognizerConfig.hotwords_file := None;
       OfflineRecognizerConfig.hotwords_score := None;
       OfflineRecognizerConfig.blank_penalty := None |} in
  recognizer ← _Recognizer recognizer_config;
  mret {| recognizer := recognizer; config := recognizer_config |}.

(** ** Streams

    The stream operations of the engine are not part of the Python layer.
    Stream creation is given the behaviour that the specification asks of
    the engine; the decode operations are left to the engine. *)

(** A new stream object on the heap. *)
Definition allocate (st : OfflineStream) (w : World) : stream_ref * World :=
  (length (heap w),
   {| engine_calls := engine_calls w; heap := heap w ++ [st] |}).

(** Modelled from the spec: the engine's [create_stream] without argument.
    "Creates a new decoding session [...] no side effects beyond allocating
    the stream's internal state"; the new stream has no hotword override of
    its own. *)
Definition engine_create_stream (h : handle) : M stream_ref :=
  fun w =>
    let '(s, w') :=
      allocate {| stream_hotwords := None; stream_samples := [];
                  stream_result := None |} (log (CreateStream h) w) in
    (inr s, w').

(** Modelled from the spec: the engine's [create_stream(hotwords)].  "If a
    per-call hotword string is supplied, it overrides [...] the
    recognizer-level hotword file for that stream only": the string is
    carried by the new stream. *)
Definition engine_create_stream_with_hotwords (h : handle)
    (hotwords : string) : M stream_ref :=
  fun w =>
    let '(s, w') :=
      allocate {| stream_hotwords := Some hotwords; stream_samples := [];
                  stream_result := None |}
               (log (CreateStreamWithHotwords h hotwords) w) in
    (inr s, w').

(** The decode operations of the engine.  The Python layer puts no
    condition on them and looks at nothing they do: each takes the streams
    to new streams and either returns or fails with an engine error. *)
Class Decoder := {
  engine_decode_stream_run :
    handle -> stream_ref -> list OfflineStream ->
    (engine_error + unit) * list OfflineStream;
  engine_decode_streams_run :
    handle -> list stream_ref -> list OfflineStream ->
    (engine_error + unit) * list OfflineStream }.

Context `{Dec : Decoder}.

Definition engine_outcome (out : engine_error + unit) : exn + unit :=
  match out with
  | inl e => inl (EngineError e)
  | inr tt => inr tt
  end.

(** The engine's [decode_stream(s)]. *)
Definition engine_decode_stream (h : handle) (s : stream_ref) : M unit :=
  fun w =>
    let '(out, hp) := engine_decode_stream_run h s (heap w) in
    (engine_outcome out,
     {| engine_calls := engine_calls w ++ [DecodeStream h s]; heap := hp |}).

(** The engine's [decode_streams(ss)]. *)
Definition engine_decode_streams (h : handle) (ss : list stream_ref)
    : M unit :=
  fun w =>
    let '(out, hp) := engine_decode_streams_run h ss (heap w) in
    (engine_outcome out,
     {| engine_calls := engine_calls w ++ [DecodeStreams h ss];
        heap := hp |}).

(** *** The three stream methods of [OfflineRecognizer] *)

Definition create_stream (self : OfflineRecognizer)
    (hotwords : option string) : M stream_ref :=
  match hotwords with
  | None => engine_create_stream (recognizer self)
  | Some hotwords =>
      engine_create_stream_with_hotwords (recognizer self) hotwords
  end.

Definition decode_stream (self : OfflineRecognizer) (s : stream_ref)
    : M unit :=
  engine_decode_stream (recognizer self) s.

Definition decode_streams (self : OfflineRecognizer)
    (ss : list stream_ref) : M unit :=
  engine_decode_streams (recognizer self) ss.

End Layer.

(** ** The recipes as one dispatcher *)

(** The class methods of [OfflineRecognizer] that build a recognizer, in
    the order of the source. *)
Inductive Recipe :=
| FromTransducer | FromSenseVoice | FromParaformer | FromTelespeechCtc
| FromNemoCtc | FromWhisper | FromMoonshine | FromTdnnCtc | FromWenetCtc.

Definition Args (r : Recipe) : Type :=
  match r with
  | FromTransducer => Transducer.Args
  | FromSenseVoice => SenseVoice.Args
  | FromParaformer => Paraformer.Args
  | FromTelespeechCtc => TelespeechCtc.Args
  | FromNemoCtc => NemoCtc.Args
  | FromWhisper => Whisper.Args
  | FromMoonshine => Moonshine.Args
  | FromTdnnCtc => TdnnCtc.Args
  | FromWenetCtc => WenetCtc.Args
  end.

(** What the caller passed for the parameters that the claims speak of.
    [None]: the recipe has no such parameter. *)
Definition tokens_of (r : Recipe) : Args r -> string :=
  match r with
  | FromTransducer => Transducer.tokens
  | FromSenseVoice => SenseVoice.tokens
  | FromParaformer => Paraformer.tokens
  | FromTelespeechCtc => TelespeechCtc.tokens
  | FromNemoCtc => NemoCtc.tokens
  | FromWhisper => Whisper.tokens
  | FromMoonshine => Moonshine.tokens
  | FromTdnnCtc => TdnnCtc.tokens
  | FromWenetCtc => WenetCtc.tokens
  end.

Definition decoding_method_of (r : Recipe) : Args r -> string :=
  match r with
  | FromTransducer => Transducer.decoding_method
  | FromSenseVoice => SenseVoice.decoding_method
  | FromParaformer => Paraformer.decoding_method
  | FromTelespeechCtc => TelespeechCtc.decoding_method
  | FromNemoCtc => NemoCtc.decoding_method
  | FromWhisper => Whisper.decoding_method
  | FromMoonshine => Moonshine.decoding_method
  | FromTdnnCtc => TdnnCtc.decoding_method
  | FromWenetCtc => WenetCtc.decoding_method
  end.

Definition hotwords_file_of (r : Recipe) : Args r -> option string :=
  match r with
  | FromTransducer => fun a => Some (Transducer.hotwords_file a)
  | _ => fun _ => None
  end.

Definition lm_of (r : Recipe) : Args r -> option string :=
  match r with
  | FromTransducer => fun a => Some (Transducer.lm a)
  | _ => fun _ => None
  end.

(** A parameter that the recipe has and that was given a non-empty
    string. *)
Definition given (o : option string) : bool :=
  match o with
  | Some f => negb (String.eqb f "")
  | None => false
  end.

(** The caller asks for hotwords or for a language model, and for a
    decoding method other than [modified_beam_search]. *)
Definition decoding_conflict (r : Recipe) (a : Args r) : bool :=
  (given (hotwords_file_of r a) || given (lm_of r a))
  && str_ne (decoding_method_of r a) "modified_beam_search".

(** The decoding methods that the documentation of the recipes names. *)
Definition recognized_method (m : string) : bool :=
  String.eqb m "greedy_search" || String.eqb m "modified_beam_search".

(** The architecture-specific keywords of [OfflineModelConfig]. *)
Inductive Payload :=
| PTransducer | PSenseVoice | PParaformer | PTelespeechCtc | PNemoCtc
| PWhisper | PMoonshine | PTdnn | PWenetCtc.

Definition supplied {A} (p : Payload) (o : option A) : list Payload :=
  match o with
  | Some _ => [p]
  | None => []
  end.

(** The payloads that a model configuration was given, in the order of the
    keywords. *)
Definition supplied_payloads (mc : OfflineModelConfig.t) : list Payload :=
  supplied PTransducer (OfflineModelConfig.transducer mc)
  ++ supplied PSenseVoice (OfflineModelConfig.sense_voice mc)
  ++ supplied PParaformer (OfflineModelConfig.paraformer mc)
  ++ supplied PTelespeechCtc (OfflineModelConfig.telespeech_ctc mc)
  ++ supplied PNemoCtc (OfflineModelConfig.nemo_ctc mc)
  ++ supplied PWhisper (OfflineModelConfig.whisper mc)
  ++ supplied PMoonshine (OfflineModelConfig.moonshine mc)
  ++ supplied PTdnn (OfflineModelConfig.tdnn mc)
  ++ supplied PWenetCtc (OfflineModelConfig.wenet_ctc mc).

(** The architecture that a recipe is for. *)
Definition payload_of (r : Recipe) : Payload :=
  match r with
  | FromTransducer => PTransducer
  | FromSenseVoice => PSenseVoice
  | FromParaformer => PParaformer
  | FromTelespeechCtc => PTelespeechCtc
  | FromNemoCtc => PNemoCtc
  | FromWhisper => PWhisper
  | FromMoonshine => PMoonshine
  | FromTdnnCtc => PTdnn
  | FromWenetCtc => PWenetCtc
  end.

(** The label that names the architecture of a recipe: the keyword of its
    payload. *)
Definition architecture_label (r : Recipe) : string :=
  match r with
  | FromTransducer => "transducer"
  | FromSenseVoice => "sense_voice"
  | FromParaformer => "paraformer"
  | FromTelespeechCtc => "telespeech_ctc"
  | FromNemoCtc => "nemo_ctc"
  | FromWhisper => "whisper"
  | FromMoonshine => "moonshine"
  | FromTdnnCtc => "tdnn"
  | FromWenetCtc => "wenet_ctc"
  end.

(** What a recipe does with the caller's [sample_rate] and [feature_dim]:
    the pair it was called with, when it has the two parameters. *)
Definition feature_args_of (r : Recipe) : Args r -> option (Z * Z) :=
  match r with
  | FromTransducer =>
      fun a => Some (Transducer.sample_rate a, Transducer.feature_dim a)
  | FromSenseVoice =>
      fun a => Some (SenseVoice.sample_rate a, SenseVoice.feature_dim a)
  | FromParaformer =>
      fun a => Some (Paraformer.sample_rate a, Paraformer.feature_dim a)
  | FromTelespeechCtc =>
      fun a =>
        Some (TelespeechCtc.sample_rate a, TelespeechCtc.feature_dim a)
  | FromNemoCtc =>
      fun a => Some (NemoCtc.sample_rate a, NemoCtc.feature_dim a)
  | FromWhisper => fun _ => None
  | FromMoonshine => fun _ => None
  | FromTdnnCtc =>
      fun a => Some (TdnnCtc.sample_rate a, TdnnCtc.feature_dim a)
  | FromWenetCtc =>
      fun a => Some (WenetCtc.sample_rate a, WenetCtc.feature_dim a)
  end.

(** The [model_type] keyword as the recipes write it: a parameter of the
    caller, a literal, or left out. *)
Definition model_type_passed (r : Recipe) : Args r -> option string :=
  match r with
  | FromTransducer => fun a => Some (Transducer.model_type a)
  | FromSenseVoice => fun _ => None
  | FromParaformer => fun _ => Some "paraformer"
  | FromTelespeechCtc => fun _ => Some "nemo_ctc"
  | FromNemoCtc => fun _ => Some "nemo_ctc"
  | FromWhisper => fun _ => Some "whisper"
  | FromMoonshine => fun _ => None
  | FromTdnnCtc => fun _ => Some "tdnn"
  | FromWenetCtc => fun _ => Some "wenet_ctc"
  end.

Definition feature_pair (c : OfflineRecognizerConfig.t) : Z * Z :=
  (FeatureExtractorConfig.sampling_rate
     (OfflineRecognizerConfig.feat_config c),
   FeatureExtractorConfig.feature_dim
     (OfflineRecognizerConfig.feat_config c)).

(** What the configuration that a recipe assembles has to do with the
    arguments of the call. *)
Definition assembled_from (r : Recipe) (a : Args r)
    (cfg : OfflineRecognizerConfig.t) : Prop :=
  OfflineModelConfig.tokens (OfflineRecognizerConfig.model_config cfg)
    = tokens_of r a
  /\ OfflineRecognizerConfig.decoding_method cfg = decoding_method_of r a
  /\ feature_pair cfg = default (16000, 80)%Z (feature_args_of r a)
  /\ supplied_payloads (OfflineRecognizerConfig.model_config cfg)
     = [payload_of r]
  /\ OfflineModelConfig.model_type (OfflineRecognizerConfig.model_config cfg)
     = model_type_passed r a.

(** The [model_type] that the recipes write on purpose: [from_transducer]
    passes on the caller's [model_type], [from_sense_voice] and
    [from_moonshine] pass none, and the others, [from_telespeech_ctc] set
    aside, pass the label of their architecture. *)
Definition label_as_written (r : Recipe) (a : Args r)
    (label : option string) : Prop :=
  match r return Args r -> Prop with
  | FromTransducer => fun a => label = Some (Transducer.model_type a)
  | FromSenseVoice => fun _ => label = None
  | FromMoonshine => fun _ => label = None
  | FromTelespeechCtc => fun _ => True
  | FromParaformer => fun _ => label = Some "paraformer"
  | FromNemoCtc => fun _ => label = Some "nemo_ctc"
  | FromWhisper => fun _ => label = Some "whisper"
  | FromTdnnCtc => fun _ => label = Some "tdnn"
  | FromWenetCtc => fun _ => label = Some "wenet_ctc"
  end a.

(** *** What a payload holds *)

(** Some path of the list is not the empty string. *)
Definition holds_path (paths : list string) : bool := existsb truthy paths.

Definition nonempty_in {A} (p : Payload) (paths : A -> list string)
    (o : option A) : list Payload :=
  match o with
  | Some x => if holds_path (paths x) then [p] else []
  | None => []
  end.

(** The payloads of a model configuration that are not empty: a payload is
    empty when it was not given, or when every file path in it is the empty
    string. *)
Definition nonempty_payloads (mc : OfflineModelConfig.t) : list Payload :=
  nonempty_in PTransducer
    (fun c => [OfflineTransducerModelConfig.encoder_filename c;
               OfflineTransducerModelConfig.decoder_filename c;
               OfflineTransducerModelConfig.joiner_filename c])
    (OfflineModelConfig.transducer mc)
  ++ nonempty_in PSenseVoice
       (fun c => [OfflineSenseVoiceModelConfig.model c])
       (OfflineModelConfig.sense_voice mc)
  ++ nonempty_in PParaformer
       (fun c => [OfflineParaformerModelConfig.model c])
       (OfflineModelConfig.paraformer mc)
  ++ nonempty_in PTelespeechCtc (fun c => [c])
       (OfflineModelConfig.telespeech_ctc mc)
  ++ nonempty_in PNemoCtc
       (fun c => [OfflineNemoEncDecCtcModelConfig.model c])
       (OfflineModelConfig.nemo_ctc mc)
  ++ nonempty_in PWhisper
       (fun c => [OfflineWhisperModelConfig.encoder c;
                  OfflineWhisperModelConfig.decoder c])
       (OfflineModelConfig.whisper mc)
  ++ nonempty_in PMoonshine
       (fun c => [OfflineMoonshineModelConfig.preprocessor c;
                  OfflineMoonshineModelConfig.encoder c;
                  OfflineMoonshineModelConfig.uncached_decoder c;
                  OfflineMoonshineModelConfig.cached_decoder c])
       (OfflineModelConfig.moonshine mc)
  ++ nonempty_in PTdnn
       (fun c => [OfflineTdnnModelConfig.model c])
       (OfflineModelConfig.tdnn mc)
  ++ nonempty_in PWenetCtc
       (fun c => [OfflineWenetCtcModelConfig.model c])
       (OfflineModelConfig.wenet_ctc mc).

(** The model paths of a call, in the order of the signature. *)
Definition model_paths_of (r : Recipe) : Args r -> list string :=
  match r with
  | FromTransducer =>
      fun a => [Transducer.encoder a; Transducer.decoder a;
                Transducer.joiner a]
  | FromSenseVoice => fun a => [SenseVoice.model a]
  | FromParaformer => fun a => [Paraformer.paraformer a]
  | FromTelespeechCtc => fun a => [TelespeechCtc.model a]
  | FromNemoCtc => fun a => [NemoCtc.model a]
  | FromWhisper => fun a => [Whisper.encoder a; Whisper.decoder a]
  | FromMoonshine =>
      fun a => [Moonshine.preprocessor a; Moonshine.encoder a;
                Moonshine.uncached_decoder a; Moonshine.cached_decoder a]
  | FromTdnnCtc => fun a => [TdnnCtc.model a]
  | FromWenetCtc => fun a => [WenetCtc.model a]
  end.

(** The payload of the recipe holds what the caller passed, each argument
    in the field of its name. *)
Definition payload_as_passed (r : Recipe) (a : Args r)
    (mc : OfflineModelConfig.t) : Prop :=
  match r return Args r -> Prop with
  | FromTransducer => fun a =>
      OfflineModelConfig.transducer mc
      = Some {| OfflineTransducerModelConfig.encoder_filename :=
                  Transducer.encoder a;
                OfflineTransducerModelConfig.decoder_filename :=
                  Transducer.decoder a;
                OfflineTransducerModelConfig.joiner_filename :=
                  Transducer.joiner a |}
  | FromSenseVoice => fun a =>
      OfflineModelConfig.sense_voice mc
      = Some {| OfflineSenseVoiceModelConfig.model := SenseVoice.model a;
                OfflineSenseVoiceModelConfig.language :=
                  SenseVoice.language a;
                OfflineSenseVoiceModelConfig.use_itn :=
                  SenseVoice.use_itn a |}
  | FromParaformer => fun a =>
      OfflineModelConfig.paraformer mc
      = Some {| OfflineParaformerModelConfig.model :=
                  Paraformer.paraformer a |}
  | FromTelespeechCtc => fun a =>
      OfflineModelConfig.telespeech_ctc mc = Some (TelespeechCtc.model a)
  | FromNemoCtc => fun a =>
      OfflineModelConfig.nemo_ctc mc
      = Some {| OfflineNemoEncDecCtcModelConfig.model := NemoCtc.model a |}
  | FromWhisper => fun a =>
      OfflineModelConfig.whisper mc
      = Some {| OfflineWhisperModelConfig.encoder := Whisper.encoder a;
                OfflineWhisperModelConfig.decoder := Whisper.decoder a;
                OfflineWhisperModelConfig.language := Whisper.language a;
                OfflineWhisperModelConfig.task := Whisper.task a;
                OfflineWhisperModelConfig.tail_paddings :=
                  Whisper.tail_paddings a |}
  | FromMoonshine => fun a =>
      OfflineModelConfig.moonshine mc
      = Some {| OfflineMoonshineModelConfig.preprocessor :=
                  Moonshine.preprocessor a;
                OfflineMoonshineModelConfig.encoder := Moonshine.encoder a;
                OfflineMoonshineModelConfig.uncached_decoder :=
                  Moonshine.uncached_decoder a;
                OfflineMoonshineModelConfig.cached_decoder :=
                  Moonshine.cached_decoder a |}
  | FromTdnnCtc => fun a =>
      OfflineModelConfig.tdnn mc
      = Some {| OfflineTdnnModelConfig.model := TdnnCtc.model a |}
  | FromWenetCtc => fun a =>
      OfflineModelConfig.wenet_ctc mc
      = Some {| OfflineWenetCtcModelConfig.model := WenetCtc.model a |}
  end a.

Section Dispatch.
Context `{Eng : Engine}.

Definition construct (r : Recipe) : Args r -> M OfflineRecognizer :=
  match r with
  | FromTransducer => from_transducer
  | FromSenseVoice => from_sense_voice
  | FromParaformer => from_paraformer
  | FromTelespeechCtc => from_telespeech_ctc
  | FromNemoCtc => from_nemo_ctc
  | FromWhisper => from_whisper
  | FromMoonshine => from_moonshine
  | FromTdnnCtc => from_tdnn_ctc
  | FromWenetCtc => from_wenet_ctc
  end.

(** The last two statements of every recipe: the configuration goes to the
    constructor of the engine, and the handle and the configuration are
    stored on the new object. *)
Definition hand_over (cfg : OfflineRecognizerConfig.t)
    : M OfflineRecognizer :=
  recognizer ← _Recognizer cfg;
  mret {| recognizer := recognizer; config := cfg |}.

(** The calls into the engine that a computation adds to the world. *)
Definition new_calls {A} (m : M A) (w : World) : list EngineCall :=
  drop (length (engine_calls w)) (engine_calls (m w).2).

End Dispatch.

(** ** A concrete engine and world, for running the definitions *)

(** An engine that accepts every configuration; its handle remembers the
    configuration, and its result for a stream is the hotword override and
    the number of samples. *)
Definition accepting_engine : Engine :=
  {| handle := OfflineRecognizerConfig.t;
     engine_error := Empty_set;
     sample := Z;
     result := option string * nat;
     engine_new := fun cfg => inr cfg;
     engine_recognize := fun _ hw xs => (hw, length xs) |}.

(** A file system without any file. *)
Definition no_files : FileSystem := {| is_file := fun _ => false |}.

Definition empty_world `{Engine} : World :=
  {| engine_calls := []; heap := [] |}.

(** ** Inputs of the examples *)

(** [from_transducer] with [decoding_method="greedy_search"] and
    [hotwords_file="hw.txt"]. *)
Definition transducer_greedy_hotwords : Transducer.Args :=
  Transducer.mk "encoder.onnx" "decoder.onnx" "joiner.onnx" "tokens.txt"
    1 16000 80 "greedy_search" 4 "hw.txt" 1.5%float 0.0%float "cjkchar" ""
    false "cpu" "transducer" "" "" "" 0.1%float.

(** [from_transducer] with [decoding_method="beam_search"], a method that
    the documentation does not name, and neither hotwords nor a language
    model. *)
Definition transducer_beam_search : Transducer.Args :=
  Transducer.mk "encoder.onnx" "decoder.onnx" "joiner.onnx" "tokens.txt"
    1 16000 80 "beam_search" 4 "" 1.5%float 0.0%float "cjkchar" ""
    false "cpu" "transducer" "" "" "" 0.1%float.

(** [from_paraformer] with the empty string as the path of the model. *)
Definition paraformer_without_model : Paraformer.Args :=
  Paraformer.defaults "" "tokens.txt".

(** [from_whisper] with [decoding_method="no_such_method"]. *)
Definition whisper_no_such_method : Whisper.Args :=
  Whisper.mk "tiny-encoder.onnx" "tiny-decoder.onnx" "tokens.txt"
    "en" "transcribe" 1 "no_such_method" false "cpu" (-1) "" "".

(** A recognizer of the accepting engine, made by [from_paraformer] with
    default arguments. *)
Definition paraformer_config : OfflineRecognizerConfig.t :=
  {| OfflineRecognizerConfig.feat_config :=
       {| FeatureExtractorConfig.sampling_rate := 16000;
          FeatureExtractorConfig.feature_dim := 80 |};
     OfflineRecognizerConfig.model_config :=
       {| OfflineModelConfig.paraformer :=
            Some {| OfflineParaformerModelConfig.model := "model.onnx" |};
          OfflineModelConfig.tokens := "tokens.txt";
          OfflineModelConfig.num_threads := 1;
          OfflineModelConfig.debug := false;
          OfflineModelConfig.provider := "cpu";
          OfflineModelConfig.model_type := Some "paraformer";
          OfflineModelConfig.modeling_unit := None;
          OfflineModelConfig.bpe_vocab := None;
          OfflineModelConfig.transducer := None;
          OfflineModelConfig.sense_voice := None;
          OfflineModelConfig.telespeech_ctc := None;
          OfflineModelConfig.nemo_ctc := None;
          OfflineModelConfig.whisper := None;
          OfflineModelConfig.moonshine := None;
          OfflineModelConfig.tdnn := None;
          OfflineModelConfig.wenet_ctc := None |};
     OfflineRecognizerConfig.decoding_method := "greedy_search";
     OfflineRecognizerConfig.rule_fsts := "";
     OfflineRecognizerConfig.rule_fars := "";
     OfflineRecognizerConfig.lm_config := None;
     OfflineRecognizerConfig.max_active_paths := None;
     OfflineRecognizerConfig.hotwords_file := None;
     OfflineRecognizerConfig.hotwords_score := None;
     OfflineRecognizerConfig.blank_penalty := None |}.

Section Concrete.
#[local] Existing Instance accepting_engine.

Definition paraformer_recognizer : OfflineRecognizer :=
  {| recognizer := paraformer_config; config := paraformer_config |}.

End Concrete.

(** ** More of what the caller passed *)

(** The parameters that every recipe has. *)
Definition num_threads_of (r : Recipe) : Args r -> Z :=
  match r with
  | FromTransducer => Transducer.num_threads
  | FromSenseVoice => SenseVoice.num_threads
  | FromParaformer => Paraformer.num_threads
  | FromTelespeechCtc => TelespeechCtc.num_threads
  | FromNemoCtc => NemoCtc.num_threads
  | FromWhisper => Whisper.num_threads
  | FromMoonshine => Moonshine.num_threads
  | FromTdnnCtc => TdnnCtc.num_threads
  | FromWenetCtc => WenetCtc.num_threads
  end.

Definition debug_of (r : Recipe) : Args r -> bool :=
  match r with
  | FromTransducer => Transducer.debug
  | FromSenseVoice => SenseVoice.debug
  | FromParaformer => Paraformer.debug
  | FromTelespeechCtc => TelespeechCtc.debug
  | FromNemoCtc => NemoCtc.debug
  | FromWhisper => Whisper.debug
  | FromMoonshine => Moonshine.debug
  | FromTdnnCtc => TdnnCtc.debug
  | FromWenetCtc => WenetCtc.debug
  end.

Definition provider_of (r : Recipe) : Args r -> string :=
  match r with
  | FromTransducer => Transducer.provider
  | FromSenseVoice => SenseVoice.provider
  | FromParaformer => Paraformer.provider
  | FromTelespeechCtc => TelespeechCtc.provider
  | FromNemoCtc => NemoCtc.provider
  | FromWhisper => Whisper.provider
  | FromMoonshine => Moonshine.provider
  | FromTdnnCtc => TdnnCtc.provider
  | FromWenetCtc => WenetCtc.provider
  end.

Definition rule_fsts_of (r : Recipe) : Args r -> string :=
  match r with
  | FromTransducer => Transducer.rule_fsts
  | FromSenseVoice => SenseVoice.rule_fsts
  | FromParaformer => Paraformer.rule_fsts
  | FromTelespeechCtc => TelespeechCtc.rule_fsts
  | FromNemoCtc => NemoCtc.rule_fsts
  | FromWhisper => Whisper.rule_fsts
  | FromMoonshine => Moonshine.rule_fsts
  | FromTdnnCtc => TdnnCtc.rule_fsts
  | FromWenetCtc => WenetCtc.rule_fsts
  end.

Definition rule_fars_of (r : Recipe) : Args r -> string :=
  match r with
  | FromTransducer => Transducer.rule_fars
  | FromSenseVoice => SenseVoice.rule_fars
  | FromParaformer => Paraformer.rule_fars
  | FromTelespeechCtc => TelespeechCtc.rule_fars
  | FromNemoCtc => NemoCtc.rule_fars
  | FromWhisper => Whisper.rule_fars
  | FromMoonshine => Moonshine.rule_fars
  | FromTdnnCtc => TdnnCtc.rule_fars
  | FromWenetCtc => WenetCtc.rule_fars
  end.

(** The parameters of a recipe that have no default value: its paths. *)
Definition Required (r : Recipe) : Type :=
  match r with
  | FromTransducer => (string * string * string * string)%type
  | FromWhisper => (string * string * string)%type
  | FromMoonshine => (string * string * string * string * string)%type
  | _ => (string * string)%type
  end.

(** A call that gives the paths only, in the order of the signature. *)
Definition defaults_of (r : Recipe) : Required r -> Args r :=
  match r with
  | FromTransducer =>
      fun '(encoder, decoder, joiner, tokens) =>
        Transducer.defaults encoder decoder joiner tokens
  | FromSenseVoice => fun '(model, tokens) => SenseVoice.defaults model tokens
  | FromParaformer =>
      fun '(paraformer, tokens) => Paraformer.defaults paraformer tokens
  | FromTelespeechCtc =>
      fun '(model, tokens) => TelespeechCtc.defaults model tokens
  | FromNemoCtc => fun '(model, tokens) => NemoCtc.defaults model tokens
  | FromWhisper =>
      fun '(encoder, decoder, tokens) =>
        Whisper.defaults encoder decoder tokens
  | FromMoonshine =>
      fun '(preprocessor, encoder, uncached_decoder, cached_decoder,
            tokens) =>
        Moonshine.defaults preprocessor encoder uncached_decoder
          cached_decoder tokens
  | FromTdnnCtc => fun '(model, tokens) => TdnnCtc.defaults model tokens
  | FromWenetCtc => fun '(model, tokens) => WenetCtc.defaults model tokens
  end.

(** The feature parameters that a recipe hands on when the caller gives the
    paths only. *)
Definition default_features (r : Recipe) : Z * Z :=
  match r with
  | FromTelespeechCtc => (16000, 40)%Z
  | FromTdnnCtc => (8000, 23)%Z
  | _ => (16000, 80)%Z
  end.

(** The keywords of the decoding policy and of hotword encoding that a
    configuration was not given. *)
Definition no_policy_keywords (cfg : OfflineRecognizerConfig.t) : Prop :=
  OfflineRecognizerConfig.lm_config cfg = None
  /\ OfflineRecognizerConfig.max_active_paths cfg = None
  /\ OfflineRecognizerConfig.hotwords_file cfg = None
  /\ OfflineRecognizerConfig.hotwords_score cfg = None
  /\ OfflineRecognizerConfig.blank_penalty cfg = None
  /\ OfflineModelConfig.modeling_unit
       (OfflineRecognizerConfig.model_config cfg) = None
  /\ OfflineModelConfig.bpe_vocab
       (OfflineRecognizerConfig.model_config cfg) = None.

(** The decoding policy of [from_transducer] in a configuration, the
    numbers of type [float] set aside. *)
Definition transducer_policy (a : Transducer.Args)
    (cfg : OfflineRecognizerConfig.t) : Prop :=
  OfflineRecognizerConfig.max_active_paths cfg
    = Some (Transducer.max_active_paths a)
  /\ OfflineRecognizerConfig.hotwords_file cfg
     = Some (Transducer.hotwords_file a)
  /\ OfflineModelConfig.modeling_unit
       (OfflineRecognizerConfig.model_config cfg)
     = Some (Transducer.modeling_unit a)
  /\ OfflineModelConfig.bpe_vocab
       (OfflineRecognizerConfig.model_config cfg)
     = Some (Transducer.bpe_vocab a).

(** The range of a C [int] of 32 bits.  The configuration classes of the
    binding take their integer arguments at that type, so that a call with
    an integer outside of the range does not get past them. *)
Definition fits_int (z : Z) : Prop :=
  (-2147483648 <= z <= 2147483647)%Z.

(** The integer arguments of a call. *)
Definition int_args_of (r : Recipe) : Args r -> list Z :=
  match r with
  | FromTransducer =>
      fun a => [Transducer.num_threads a; Transducer.sample_rate a;
                Transducer.feature_dim a; Transducer.max_active_paths a]
  | FromSenseVoice =>
      fun a => [SenseVoice.num_threads a; SenseVoice.sample_rate a;
                SenseVoice.feature_dim a]
  | FromParaformer =>
      fun a => [Paraformer.num_threads a; Paraformer.sample_rate a;
                Paraformer.feature_dim a]
  | FromTelespeechCtc =>
      fun a => [TelespeechCtc.num_threads a; TelespeechCtc.sample_rate a;
                TelespeechCtc.feature_dim a]
  | FromNemoCtc =>
      fun a => [NemoCtc.num_threads a; NemoCtc.sample_rate a;
                NemoCtc.feature_dim a]
  | FromWhisper =>
      fun a => [Whisper.num_threads a; Whisper.tail_paddings a]
  | FromMoonshine => fun a => [Moonshine.num_threads a]
  | FromTdnnCtc =>
      fun a => [TdnnCtc.num_threads a; TdnnCtc.sample_rate a;
                TdnnCtc.feature_dim a]
  | FromWenetCtc =>
      fun a => [WenetCtc.num_threads a; WenetCtc.sample_rate a;
                WenetCtc.feature_dim a]
  end.

(** The parameters that every recipe has, in a configuration. *)
Definition shared_from (r : Recipe) (a : Args r)
    (cfg : OfflineRecognizerConfig.t) : Prop :=
  OfflineModelConfig.num_threads (OfflineRecognizerConfig.model_config cfg)
    = num_threads_of r a
  /\ OfflineModelConfig.debug (OfflineRecognizerConfig.model_config cfg)
     = debug_of r a
  /\ OfflineModelConfig.provider (OfflineRecognizerConfig.model_config cfg)
     = provider_of r a
  /\ OfflineRecognizerConfig.rule_fsts cfg = rule_fsts_of r a
  /\ OfflineRecognizerConfig.rule_fars cfg = rule_fars_of r a.

(** An engine that checks the configuration as its first step: it refuses
    a decoding method that is not one of the two, and an empty path of the
    token table. *)
Definition checking_engine : Engine :=
  {| handle := OfflineRecognizerConfig.t;
     engine_error := string;
     sample := Z;
     result := option string * nat;
     engine_new := fun cfg =>
       if negb (recognized_method
                  (OfflineRecognizerConfig.decoding_method cfg))
       then inl "unsupported decoding method"
       else if String.eqb
                 (OfflineModelConfig.tokens
                    (OfflineRecognizerConfig.model_config cfg)) ""
       then inl "tokens is empty"
       else inr cfg;
     engine_recognize := fun _ hw xs => (hw, length xs) |}.

(** [from_transducer] with [decoding_method="modified_beam_search"], a
    hotwords file and a language model. *)
Definition transducer_beam_hotwords_lm : Transducer.Args :=
  Transducer.mk "encoder.onnx" "decoder.onnx" "joiner.onnx" "tokens.txt"
    2 16000 80 "modified_beam_search" 8 "hw.txt" 2.0%float 0.5%float "bpe"
    "bpe.vocab" true "cuda" "transducer" "itn.fst" "" "lm.onnx" 0.3%float.

(** [from_transducer] with [decoding_method="greedy_search"], a hotwords
    file and a language model. *)
Definition transducer_greedy_hotwords_lm : Transducer.Args :=
  Transducer.mk "encoder.onnx" "decoder.onnx" "joiner.onnx" "tokens.txt"
    1 16000 80 "greedy_search" 4 "hw.txt" 1.5%float 0.0%float "cjkchar" ""
    false "cpu" "transducer" "" "" "lm.onnx" 0.1%float.

(** [from_transducer] with [decoding_method="greedy_search"] and a language
    model only. *)
Definition transducer_greedy_lm : Transducer.Args :=
  Transducer.mk "encoder.onnx" "decoder.onnx" "joiner.onnx" "tokens.txt"
    1 16000 80 "greedy_search" 4 "" 1.5%float 0.0%float "cjkchar" ""
    false "cpu" "transducer" "" "" "lm.onnx" 0.1%float.

(** [from_sense_voice] with rule files and a thread count. *)
Definition sense_voice_with_rules : SenseVoice.Args :=
  SenseVoice.mk "model.onnx" "tokens.txt" 4 16000 80
    "modified_beam_search" true "coreml" "zh" true
    "itn_zh_number.fst,itn_zh_date.fst" "itn.far".

(** [from_tdnn_ctc] with [sample_rate=0] and [feature_dim=-5]. *)
Definition tdnn_odd_features : TdnnCtc.Args :=
  TdnnCtc.mk "model.onnx" "tokens.txt" 1 0 (-5) "greedy_search" false
    "cpu" "" "".

(** * Properties *)

Section Properties.
Context `{Eng : Engine}.

(** ** Strings *)

Lemma len_positive_truthy (s : string) : len_positive s = truthy s.
Proof. destruct s; reflexivity. Qed.

Lemma given_Some (s : string) : given (Some s) = truthy s.
Proof. destruct s; reflexivity. Qed.

Lemma given_true (o : option string) :
  given o = true <-> exists f, o = Some f /\ f <> "".
Proof.
  destruct o as [f|]; cbn.
  - rewrite negb_true_iff, String.eqb_neq. split.
    + intros Hf. exists f. auto.
    + intros (g & [= ->] & Hg). exact Hg.
  - split; [discriminate | intros (f & [=] & _)].
Qed.

(** ** The shape of a recipe

    A recipe either stops at the check of the decoding method, before
    anything has happened, or ends by handing a configuration over to the
    engine. *)

Lemma hand_over_unfold (cfg : OfflineRecognizerConfig.t) (w : World) :
  hand_over cfg w =
    match engine_new cfg with
    | inl e => (inl (EngineError e), log (NewRecognizer cfg) w)
    | inr h =>
        (inr {| recognizer := h; config := cfg |},
         log (NewRecognizer cfg) w)
    end.
Proof.
  unfold hand_over, mbind, M_bind, _Recognizer.
  destruct (engine_new cfg); reflexivity.
Qed.

Lemma new_calls_hand_over (cfg : OfflineRecognizerConfig.t) (w : World) :
  new_calls (hand_over cfg) w = [NewRecognizer cfg].
Proof.
  unfold new_calls. rewrite hand_over_unfold.
  destruct (engine_new cfg); cbn; apply drop_app_length.
Qed.

Lemma new_calls_unchanged {A} (m : M A) (w : World) :
  (m w).2 = w -> new_calls m w = [].
Proof. unfold new_calls. intros ->. apply drop_all. Qed.

Lemma from_transducer_conflict (a : Transducer.Args) (w : World) :
  decoding_conflict FromTransducer a = true ->
  exists msg, from_transducer a w = (inl (ValueError msg), w).
Proof.
  destruct a as [enc dec joi tok nt sr fd dm map hw hs bp mu bv dbg prov mt
                 rfst rfar lm lms].
  unfold decoding_conflict. cbn [hotwords_file_of lm_of decoding_method_of
    Transducer.hotwords_file Transducer.lm Transducer.decoding_method].
  rewrite !given_Some, andb_true_iff, orb_true_iff.
  intros [Hgiven Hne].
  unfold from_transducer, mbind, M_bind, raise_if, raise.
  rewrite len_positive_truthy, Hne, !andb_true_r.
  destruct (truthy hw) eqn:Hhw.
  - eexists. reflexivity.
  - destruct Hgiven as [[=] | ->]. cbn. eexists. reflexivity.
Qed.

Lemma from_transducer_no_conflict (a : Transducer.Args) (w : World) :
  decoding_conflict FromTransducer a = false ->
  exists cfg,
    from_transducer a w = hand_over cfg w
    /\ OfflineModelConfig.tokens (OfflineRecognizerConfig.model_config cfg)
       = Transducer.tokens a
    /\ OfflineRecognizerConfig.decoding_method cfg
       = Transducer.decoding_method a
    /\ feature_pair cfg = (Transducer.sample_rate a, Transducer.feature_dim a)
    /\ supplied_payloads (OfflineRecognizerConfig.model_config cfg)
       = [PTransducer]
    /\ OfflineModelConfig.model_type
         (OfflineRecognizerConfig.model_config cfg)
       = Some (Transducer.model_type a).
Proof.
  destruct a as [enc dec joi tok nt sr fd dm map hw hs bp mu bv dbg prov mt
                 rfst rfar lm lms].
  unfold decoding_conflict. cbn [hotwords_file_of lm_of decoding_method_of
    Transducer.hotwords_file Transducer.lm Transducer.decoding_method].
  rewrite !given_Some. intros Hc.
  unfold from_transducer, mbind, M_bind, raise_if, raise.
  rewrite len_positive_truthy.
  assert (truthy hw && str_ne dm "modified_beam_search" = false
          /\ truthy lm && str_ne dm "modified_beam_search" = false)
    as [-> ->].
  { destruct (truthy hw), (truthy lm), (str_ne dm "modified_beam_search");
      cbn in Hc; try discriminate; auto. }
  cbn. eexists. split; [reflexivity |]. cbn. auto.
Qed.

Lemma construct_conflict (r : Recipe) (a : Args r) (w : World) :
  decoding_conflict r a = true ->
  exists msg, construct r a w = (inl (ValueError msg), w).
Proof.
  destruct r; try discriminate. apply from_transducer_conflict.
Qed.

Lemma construct_no_conflict (r : Recipe) (a : Args r) (w : World) :
  decoding_conflict r a = false ->
  exists cfg, construct r a w = hand_over cfg w /\ assembled_from r a cfg.
Proof.
  intros Hc. destruct r.
  1: { destruct (from_transducer_no_conflict a w Hc)
         as (cfg & Hrun & Ht & Hd & Hf & Hp & Hm).
       exists cfg. split; [exact Hrun |]. repeat split; assumption. }
  all: destruct a; eexists; split; [reflexivity |];
    repeat split; reflexivity.
Qed.

Lemma construct_result_cases (r : Recipe) (a : Args r) (w : World) :
  (exists msg, construct r a w = (inl (ValueError msg), w)
               /\ decoding_conflict r a = true)
  \/ (exists cfg, construct r a w = hand_over cfg w
                  /\ assembled_from r a cfg
                  /\ decoding_conflict r a = false).
Proof.
  destruct (decoding_conflict r a) eqn:Hc.
  - left. destruct (construct_conflict r a w Hc) as [msg Hm]. eauto.
  - right. destruct (construct_no_conflict r a w Hc) as (cfg & H1 & H2).
    eauto.
Qed.

(** ** Validation of the decoding method *)

(** C1.  For every recipe that has the parameters: when [hotwords_file] is
    a non-empty string, or [lm] is a non-empty string, and
    [decoding_method] is not ["modified_beam_search"], the recipe raises
    [ValueError]; no recognizer is returned and the world is as before the
    call. *)
Theorem hotwords_and_lm_need_modified_beam_search
    (r : Recipe) (a : Args r) (w : World) :
  decoding_method_of r a <> "modified_beam_search" ->
  (exists f, hotwords_file_of r a = Some f /\ f <> "")
  \/ (exists f, lm_of r a = Some f /\ f <> "") ->
  exists msg, construct r a w = (inl (ValueError msg), w).
Proof.
  intros Hdm Hgiven. apply construct_conflict.
  unfold decoding_conflict, str_ne.
  rewrite andb_true_iff, orb_true_iff, negb_true_iff, String.eqb_neq.
  rewrite !given_true. auto.
Qed.

(** C9, as amended.  Whenever a recipe raises a configuration error, the
    constructor of the engine has not been called and the world is as
    before the call; and the only input that makes a recipe raise one is a
    hotwords file or a language model together with a decoding method that
    is not ["modified_beam_search"]. *)
Theorem configuration_error_precedes_engine
    (r : Recipe) (a : Args r) (w : World) (msg : string) :
  (construct r a w).1 = inl (ValueError msg) ->
  (construct r a w).2 = w
  /\ new_calls (construct r a) w = []
  /\ decoding_conflict r a = true.
Proof.
  intros Hraise.
  destruct (construct_result_cases r a w)
    as [(m & Hrun & Hc) | (cfg & Hrun & _ & _)].
  - assert ((construct r a w).2 = w) as Hw by (rewrite Hrun; reflexivity).
    auto using new_calls_unchanged.
  - rewrite Hrun, hand_over_unfold in Hraise.
    destruct (engine_new cfg); discriminate.
Qed.

(** C5, as amended.  No recipe compares [decoding_method] with the methods
    it documents: a method outside of them, unless the check of hotwords
    and language model stops the call, is handed to the constructor of the
    engine as the caller wrote it. *)
Theorem decoding_method_is_handed_on
    (r : Recipe) (a : Args r) (w : World) :
  recognized_method (decoding_method_of r a) = false ->
  decoding_conflict r a = false ->
  exists cfg,
    construct r a w = hand_over cfg w
    /\ new_calls (construct r a) w = [NewRecognizer cfg]
    /\ OfflineRecognizerConfig.decoding_method cfg = decoding_method_of r a
    /\ recognized_method (OfflineRecognizerConfig.decoding_method cfg)
       = false.
Proof.
  intros Hun Hc.
  destruct (construct_no_conflict r a w Hc)
    as (cfg & Hrun & _ & Hdm & _).
  exists cfg. split; [exact Hrun |]. split; [| split].
  - unfold new_calls. rewrite Hrun. apply new_calls_hand_over.
  - exact Hdm.
  - rewrite Hdm. exact Hun.
Qed.

(** ** The token table *)

(** C4, as amended.  No recipe looks at the file system: when the token
    table does not exist, so that [_assert_file_exists] would raise, the
    recipe still hands its configuration, with the path as the caller
    wrote it, to the constructor of the engine (unless the check of the
    decoding method stops the call). *)
Theorem tokens_path_is_not_checked `{FS : FileSystem}
    (r : Recipe) (a : Args r) (w : World) :
  is_file (tokens_of r a) = false ->
  decoding_conflict r a = false ->
  (exists msg,
     _assert_file_exists (tokens_of r a) w = (inl (AssertionError msg), w))
  /\ exists cfg,
       construct r a w = hand_over cfg w
       /\ new_calls (construct r a) w = [NewRecognizer cfg]
       /\ OfflineModelConfig.tokens
            (OfflineRecognizerConfig.model_config cfg) = tokens_of r a.
Proof.
  intros Hfile Hc. split.
  - unfold _assert_file_exists, raise_if, raise. rewrite Hfile. cbn.
    eexists. reflexivity.
  - destruct (construct_no_conflict r a w Hc) as (cfg & Hrun & Hcfg).
    exists cfg. split; [exact Hrun |]. split.
    + unfold new_calls. rewrite Hrun. apply new_calls_hand_over.
    + apply Hcfg.
Qed.

(** ** The model configuration *)

Lemma construct_payload (r : Recipe) (a : Args r) (w : World) :
  decoding_conflict r a = false ->
  exists cfg,
    construct r a w = hand_over cfg w
    /\ assembled_from r a cfg
    /\ payload_as_passed r a (OfflineRecognizerConfig.model_config cfg)
    /\ nonempty_payloads (OfflineRecognizerConfig.model_config cfg)
       = if holds_path (model_paths_of r a) then [payload_of r] else [].
Proof.
  intros Hc. destruct r.
  1: { destruct a as [enc dec joi tok nt sr fd dm map hw hs bp mu bv dbg
                      prov mt rfst rfar lm lms].
       unfold decoding_conflict in Hc.
       cbn [hotwords_file_of lm_of decoding_method_of
            Transducer.hotwords_file Transducer.lm
            Transducer.decoding_method] in Hc.
       rewrite !given_Some in Hc.
       cbn [construct].
       unfold from_transducer, mbind, M_bind, raise_if, raise.
       rewrite len_positive_truthy.
       assert (truthy hw && str_ne dm "modified_beam_search" = false
               /\ truthy lm && str_ne dm "modified_beam_search" = false)
         as [-> ->].
       { destruct (truthy hw), (truthy lm),
           (str_ne dm "modified_beam_search");
           cbn in Hc; try discriminate; auto. }
       cbn -[holds_path]. eexists. split; [reflexivity |].
       split; [repeat split |]. split; [reflexivity |].
       unfold nonempty_payloads. cbn -[holds_path].
       destruct (holds_path [enc; dec; joi]); reflexivity. }
  all: destruct a; eexists; (split; [reflexivity |]);
    (split; [repeat split |]); (split; [reflexivity |]);
    unfold nonempty_payloads; cbn -[holds_path];
    match goal with |- context [holds_path ?l] =>
      destruct (holds_path l); reflexivity end.
Qed.

(** C2, as amended.  The model configuration that a recipe hands to the
    engine has exactly one architecture-specific payload, the one of the
    recipe, and that payload holds the paths and options of the caller,
    each in the field of its name.  The payload is non-empty when some
    model path of the call is not the empty string; when all are empty, no
    payload of the configuration is non-empty.  The [model_type] is the
    caller's for [from_transducer], absent for [from_sense_voice] and
    [from_moonshine], and the label of the architecture for
    [from_paraformer], [from_nemo_ctc], [from_whisper], [from_tdnn_ctc]
    and [from_wenet_ctc]. *)
Theorem one_payload_and_its_label
    (r : Recipe) (a : Args r) (w : World) :
  decoding_conflict r a = false ->
  exists cfg,
    construct r a w = hand_over cfg w
    /\ supplied_payloads (OfflineRecognizerConfig.model_config cfg)
       = [payload_of r]
    /\ payload_as_passed r a (OfflineRecognizerConfig.model_config cfg)
    /\ nonempty_payloads (OfflineRecognizerConfig.model_config cfg)
       = (if holds_path (model_paths_of r a) then [payload_of r] else [])
    /\ label_as_written r a
         (OfflineModelConfig.model_type
            (OfflineRecognizerConfig.model_config cfg)).
Proof.
  intros Hc.
  destruct (construct_payload r a w Hc)
    as (cfg & Hrun & (_ & _ & _ & Hp & Hm) & Hpay & Hne).
  exists cfg. split; [exact Hrun |]. split; [exact Hp |].
  split; [exact Hpay |]. split; [exact Hne |].
  rewrite Hm. destruct r; cbn; trivial.
Qed.

(** ** Feature extraction parameters *)

(** C3, as amended.  [from_telespeech_ctc] writes the caller's
    [sample_rate] and [feature_dim] into the feature extraction parameters
    of the configuration that goes to the engine and onto the recognizer;
    the defaults of the two parameters are 16000 and 40. *)
Theorem telespeech_features_are_the_callers
    (a : TelespeechCtc.Args) (w : World) :
  (exists cfg,
     from_telespeech_ctc a w = hand_over cfg w
     /\ feature_pair cfg
        = (TelespeechCtc.sample_rate a, TelespeechCtc.feature_dim a))
  /\ forall model tokens,
       let d := TelespeechCtc.defaults model tokens in
       (TelespeechCtc.sample_rate d, TelespeechCtc.feature_dim d)
       = (16000, 40)%Z.
Proof.
  split.
  - destruct a. eexists. split; reflexivity.
  - reflexivity.
Qed.

(** C6.  [from_whisper] and [from_moonshine] hand the engine a
    configuration with sample rate 16000 and feature dimension 80,
    whatever the arguments of the call; the recognizer, when the engine
    makes one, carries that configuration. *)
Theorem whisper_and_moonshine_fix_features
    (aw : Whisper.Args) (am : Moonshine.Args) (w : World) :
  (exists cfg,
     from_whisper aw w = hand_over cfg w
     /\ feature_pair cfg = (16000, 80)%Z)
  /\ (exists cfg,
        from_moonshine am w = hand_over cfg w
        /\ feature_pair cfg = (16000, 80)%Z).
Proof.
  split.
  - destruct aw. eexists. split; reflexivity.
  - destruct am. eexists. split; reflexivity.
Qed.

(** ** Stream creation *)

(** C10.  [create_stream()] and [create_stream(None)] call the engine's
    [create_stream] without argument; every string, the empty one too,
    goes to the engine's [create_stream(hotwords)] and is carried by the
    new stream as its own hotwords. *)
Theorem create_stream_none_is_not_empty
    (self : OfflineRecognizer) (w : World) :
  create_stream self None w = engine_create_stream (recognizer self) w
  /\ new_calls (create_stream self None) w
     = [CreateStream (recognizer self)]
  /\ (forall hotwords,
        create_stream self (Some hotwords) w
        = engine_create_stream_with_hotwords (recognizer self) hotwords w
        /\ new_calls (create_stream self (Some hotwords)) w
           = [CreateStreamWithHotwords (recognizer self) hotwords])
  /\ (stream_hotwords <$>
        heap (create_stream self None w).2 !! length (heap w)) = Some None
  /\ (stream_hotwords <$>
        heap (create_stream self (Some "") w).2 !! length (heap w))
     = Some (Some "").
Proof.
  split; [reflexivity |].
  split; [unfold new_calls; cbn; apply drop_app_length |].
  split.
  - intros hotwords. split; [reflexivity |].
    unfold new_calls; cbn; apply drop_app_length.
  - split; cbn; rewrite list_lookup_middle; reflexivity.
Qed.

End Properties.

(** * More properties of the recipes *)

Section RecipeProperties.
Context `{Eng : Engine}.

(** The step of [from_transducer] past its two checks. *)
Ltac pass_transducer_checks a Hc :=
  destruct a as [enc dec joi tok nt sr fd dm map hw hs bp mu bv dbg prov mt
                 rfst rfar lm lms];
  unfold decoding_conflict in Hc;
  cbn [hotwords_file_of lm_of decoding_method_of Transducer.hotwords_file
       Transducer.lm Transducer.decoding_method] in Hc;
  rewrite !given_Some in Hc;
  unfold from_transducer, mbind, M_bind, raise_if, raise;
  rewrite len_positive_truthy;
  assert (truthy hw && str_ne dm "modified_beam_search" = false
          /\ truthy lm && str_ne dm "modified_beam_search" = false)
    as [-> ->]
    by (destruct (truthy hw), (truthy lm),
          (str_ne dm "modified_beam_search");
        cbn in Hc; try discriminate; auto);
  cbn.

Lemma hand_over_inj (cfg cfg' : OfflineRecognizerConfig.t) (w : World) :
  hand_over cfg w = hand_over cfg' w -> cfg = cfg'.
Proof.
  intros Heq.
  assert (new_calls (hand_over cfg) w = new_calls (hand_over cfg') w)
    as Hcalls by (unfold new_calls; rewrite Heq; reflexivity).
  rewrite !new_calls_hand_over in Hcalls. congruence.
Qed.

Lemma hand_over_world (cfg : OfflineRecognizerConfig.t) (w : World) :
  (hand_over cfg w).2 = log (NewRecognizer cfg) w.
Proof. rewrite hand_over_unfold. destruct (engine_new cfg); reflexivity. Qed.

Lemma construct_shared (r : Recipe) (a : Args r) (w : World) :
  decoding_conflict r a = false ->
  exists cfg, construct r a w = hand_over cfg w /\ shared_from r a cfg.
Proof.
  intros Hc. destruct r.
  1: { cbn [construct]. pass_transducer_checks a Hc.
       eexists. split; [reflexivity |]. repeat split. }
  all: destruct a; eexists; split; [reflexivity |]; repeat split.
Qed.

(** ** What comes back from a recipe *)

(** X1.  A recognizer that a recipe returns carries the configuration that
    the engine was built from: the constructor of the engine was called
    once, with that configuration, and answered with the handle that the
    recognizer holds. *)
Theorem recognizer_holds_engine_config
    (r : Recipe) (a : Args r) (w w' : World) (self : OfflineRecognizer) :
  construct r a w = (inr self, w') ->
  engine_new (config self) = inr (recognizer self)
  /\ w' = log (NewRecognizer (config self)) w
  /\ assembled_from r a (config self).
Proof.
  intros Hrun.
  destruct (construct_result_cases r a w)
    as [(m & Hm & _) | (cfg & Hcfg & Hasm & _)].
  - rewrite Hm in Hrun. discriminate.
  - rewrite Hcfg, hand_over_unfold in Hrun.
    destruct (engine_new cfg) as [e | h] eqn:Hnew; [discriminate |].
    injection Hrun as <- <-. cbn. auto.
Qed.

(** X2.  An engine error that leaves a recipe is the answer of the
    constructor of the engine to the configuration of the call; the
    constructor was called once, and no recognizer exists. *)
Theorem engine_error_is_passed_on
    (r : Recipe) (a : Args r) (w w' : World) (e : engine_error) :
  construct r a w = (inl (EngineError e), w') ->
  exists cfg,
    engine_new cfg = inl e
    /\ w' = log (NewRecognizer cfg) w
    /\ assembled_from r a cfg.
Proof.
  intros Hrun.
  destruct (construct_result_cases r a w)
    as [(m & Hm & _) | (cfg & Hcfg & Hasm & _)].
  - rewrite Hm in Hrun. discriminate.
  - rewrite Hcfg, hand_over_unfold in Hrun.
    destruct (engine_new cfg) as [e' | h] eqn:Hnew; [| discriminate].
    injection Hrun as <- <-. exists cfg. auto.
Qed.

(** X3.  A recipe never touches a stream, never raises an assertion
    error, and keeps the calls made before it: it adds at most one call,
    a call of the constructor of the engine. *)
Theorem recipe_frame (r : Recipe) (a : Args r) (w : World) :
  heap (construct r a w).2 = heap w
  /\ engine_calls (construct r a w).2
     = (engine_calls w ++ new_calls (construct r a) w)%list
  /\ (new_calls (construct r a) w = []
      \/ exists cfg, new_calls (construct r a) w = [NewRecognizer cfg])
  /\ forall msg, (construct r a w).1 <> inl (AssertionError msg).
Proof.
  destruct (construct_result_cases r a w)
    as [(m & Hm & _) | (cfg & Hcfg & _)].
  - assert (new_calls (construct r a) w = []) as Hnone
      by (apply new_calls_unchanged; rewrite Hm; reflexivity).
    rewrite Hnone, Hm. cbn. rewrite app_nil_r.
    repeat split; auto; discriminate.
  - assert (new_calls (construct r a) w = [NewRecognizer cfg]) as Hone
      by (unfold new_calls; rewrite Hcfg; apply new_calls_hand_over).
    rewrite Hone, Hcfg, hand_over_world. cbn.
    repeat split; eauto.
    intros msg. rewrite hand_over_unfold.
    destruct (engine_new cfg); discriminate.
Qed.

(** ** The decoding policy *)

(** X4.  The eight recipes other than [from_transducer] never raise a
    configuration error, whatever the decoding method, and give the
    engine no language model, no beam width, no hotwords file or score, no
    blank penalty, no modeling unit and no BPE vocabulary. *)
Theorem other_recipes_pass_no_policy
    (r : Recipe) (a : Args r) (w : World) :
  r <> FromTransducer ->
  exists cfg,
    construct r a w = hand_over cfg w
    /\ OfflineRecognizerConfig.decoding_method cfg = decoding_method_of r a
    /\ no_policy_keywords cfg.
Proof.
  intros Hr. destruct r; [congruence | ..];
    destruct a; eexists; (split; [reflexivity |]); repeat split.
Qed.

(** X5.  In the configuration that [from_transducer] hands to the engine,
    for integer arguments in the range of a C [int], the language model
    has the path of the caller and runs with the thread count and the
    provider of the acoustic model, which are the caller's; beam width,
    hotwords file, modeling unit and BPE vocabulary are the caller's. *)
Theorem transducer_policy_is_handed_on
    (a : Transducer.Args) (w : World) :
  Forall fits_int (int_args_of FromTransducer a) ->
  decoding_conflict FromTransducer a = false ->
  exists cfg lmc,
    from_transducer a w = hand_over cfg w
    /\ OfflineRecognizerConfig.lm_config cfg = Some lmc
    /\ OfflineLMConfig.model lmc = Transducer.lm a
    /\ OfflineLMConfig.lm_num_threads lmc = Transducer.num_threads a
    /\ fits_int (OfflineLMConfig.lm_num_threads lmc)
    /\ OfflineLMConfig.lm_num_threads lmc
       = OfflineModelConfig.num_threads
           (OfflineRecognizerConfig.model_config cfg)
    /\ OfflineLMConfig.lm_provider lmc = Transducer.provider a
    /\ OfflineLMConfig.lm_provider lmc
       = OfflineModelConfig.provider
           (OfflineRecognizerConfig.model_config cfg)
    /\ transducer_policy a cfg.
Proof.
  intros Hfit Hc.
  assert (fits_int (Transducer.num_threads a)) as Hnt.
  { rewrite Forall_forall in Hfit. apply Hfit. destruct a. cbn.
    rewrite !elem_of_cons. tauto. }
  pass_transducer_checks a Hc.
  do 2 eexists. split; [reflexivity |]. repeat split; apply Hnt.
Qed.

(** X6.  The message of the configuration error of [from_transducer] names
    [--hotwords-file] whenever a hotwords file was given, also when a
    language model was given too, and [--lm] otherwise; it ends with the
    decoding method of the call. *)
Theorem conflict_message_names_the_option
    (a : Transducer.Args) (w : World) :
  decoding_conflict FromTransducer a = true ->
  from_transducer a w
  = (inl (ValueError
            ("Please use --decoding-method=modified_beam_search when using "
             ++ (if truthy (Transducer.hotwords_file a)
                 then "--hotwords-file" else "--lm")
             ++ ". Currently given: " ++ Transducer.decoding_method a)),
     w).
Proof.
  destruct a as [enc dec joi tok nt sr fd dm map hw hs bp mu bv dbg prov mt
                 rfst rfar lm lms].
  unfold decoding_conflict. cbn [hotwords_file_of lm_of decoding_method_of
    Transducer.hotwords_file Transducer.lm Transducer.decoding_method].
  rewrite !given_Some, andb_true_iff, orb_true_iff.
  intros [Hgiven Hne].
  unfold from_transducer, mbind, M_bind, raise_if, raise.
  rewrite len_positive_truthy, Hne, !andb_true_r.
  destruct (truthy hw) eqn:Hhw.
  - reflexivity.
  - destruct Hgiven as [[=] | ->]. reflexivity.
Qed.

(** X9.  With [decoding_method="modified_beam_search"] no recipe raises a
    configuration error, whatever the hotwords file and the language
    model: the constructor of the engine is called with that method. *)
Theorem modified_beam_search_always_passes
    (r : Recipe) (a : Args r) (w : World) :
  decoding_method_of r a = "modified_beam_search" ->
  exists cfg,
    construct r a w = hand_over cfg w
    /\ new_calls (construct r a) w = [NewRecognizer cfg]
    /\ OfflineRecognizerConfig.decoding_method cfg
       = "modified_beam_search".
Proof.
  intros Hdm.
  assert (decoding_conflict r a = false) as Hc.
  { unfold decoding_conflict. rewrite Hdm. apply andb_false_r. }
  destruct (construct_no_conflict r a w Hc)
    as (cfg & Hrun & _ & Hm & _).
  exists cfg. split; [exact Hrun |]. split.
  - unfold new_calls. rewrite Hrun. apply new_calls_hand_over.
  - rewrite Hm. exact Hdm.
Qed.

(** ** The parameters that every recipe has *)

(** X7.  Every recipe hands the engine the thread count, the debug flag
    and the provider of the caller, and the two strings of rule files as
    the caller wrote them: a list of paths with commas is not split. *)
Theorem shared_parameters_are_handed_on
    (r : Recipe) (a : Args r) (w : World) :
  decoding_conflict r a = false ->
  exists cfg,
    construct r a w = hand_over cfg w
    /\ new_calls (construct r a) w = [NewRecognizer cfg]
    /\ shared_from r a cfg.
Proof.
  intros Hc. destruct (construct_shared r a w Hc) as (cfg & Hrun & Hs).
  exists cfg. split; [exact Hrun |]. split; [| exact Hs].
  unfold new_calls. rewrite Hrun. apply new_calls_hand_over.
Qed.

(** X8.  A call of a recipe with its paths only raises no configuration
    error: the engine gets the method ["greedy_search"], one thread, the
    provider ["cpu"], no debugging, no rule files, and the feature
    parameters 16000 and 80, but 16000 and 40 from [from_telespeech_ctc]
    and 8000 and 23 from [from_tdnn_ctc]. *)
Theorem defaults_reach_the_engine
    (r : Recipe) (paths : Required r) (w : World) :
  exists cfg,
    construct r (defaults_of r paths) w = hand_over cfg w
    /\ OfflineRecognizerConfig.decoding_method cfg = "greedy_search"
    /\ feature_pair cfg = default_features r
    /\ OfflineModelConfig.num_threads
         (OfflineRecognizerConfig.model_config cfg) = 1%Z
    /\ OfflineModelConfig.provider
         (OfflineRecognizerConfig.model_config cfg) = "cpu"
    /\ OfflineModelConfig.debug
         (OfflineRecognizerConfig.model_config cfg) = false
    /\ OfflineRecognizerConfig.rule_fsts cfg = ""
    /\ OfflineRecognizerConfig.rule_fars cfg = "".
Proof.
  destruct r; cbn in paths;
    repeat match goal with p : (_ * _)%type |- _ => destruct p end;
    eexists; (split; [reflexivity |]); repeat split.
Qed.

(** ** Labels and feature parameters *)

(** X10.  The [model_type] does not tell the recipes apart:
    [from_telespeech_ctc] and [from_nemo_ctc] both write ["nemo_ctc"], the
    first next to a [telespeech_ctc] payload and the second next to a
    [nemo_ctc] payload. *)
Theorem telespeech_and_nemo_share_the_label
    (at_ : TelespeechCtc.Args) (an : NemoCtc.Args) (w : World) :
  exists ct cn,
    from_telespeech_ctc at_ w = hand_over ct w
    /\ from_nemo_ctc an w = hand_over cn w
    /\ OfflineModelConfig.model_type
         (OfflineRecognizerConfig.model_config ct) = Some "nemo_ctc"
    /\ OfflineModelConfig.model_type
         (OfflineRecognizerConfig.model_config cn) = Some "nemo_ctc"
    /\ OfflineModelConfig.telespeech_ctc
         (OfflineRecognizerConfig.model_config ct)
       = Some (TelespeechCtc.model at_)
    /\ OfflineModelConfig.nemo_ctc
         (OfflineRecognizerConfig.model_config ct) = None
    /\ OfflineModelConfig.nemo_ctc
         (OfflineRecognizerConfig.model_config cn)
       = Some {| OfflineNemoEncDecCtcModelConfig.model := NemoCtc.model an |}
    /\ OfflineModelConfig.telespeech_ctc
         (OfflineRecognizerConfig.model_config cn) = None.
Proof.
  destruct at_, an. do 2 eexists.
  split; [reflexivity |]. split; [reflexivity |]. repeat split.
Qed.

(** X11.  A recipe that has the parameters [sample_rate] and [feature_dim]
    hands them to the engine as they are, for every call whose integer
    arguments are in the range of a C [int], zero and negative numbers
    too: this layer neither checks nor changes them. *)
Theorem feature_parameters_are_handed_on
    (r : Recipe) (a : Args r) (w : World) (p : Z * Z) :
  feature_args_of r a = Some p ->
  Forall fits_int (int_args_of r a) ->
  decoding_conflict r a = false ->
  exists cfg,
    construct r a w = hand_over cfg w
    /\ new_calls (construct r a) w = [NewRecognizer cfg]
    /\ feature_pair cfg = p
    /\ fits_int p.1 /\ fits_int p.2.
Proof.
  intros Hp Hfit Hc.
  destruct (construct_no_conflict r a w Hc)
    as (cfg & Hrun & _ & _ & Hf & _).
  exists cfg. split; [exact Hrun |]. split; [| split].
  - unfold new_calls. rewrite Hrun. apply new_calls_hand_over.
  - rewrite Hf, Hp. reflexivity.
  - rewrite Forall_forall in Hfit.
    destruct r; destruct a; cbn in Hp; try discriminate;
      injection Hp as <-; cbn; split; apply Hfit; cbn;
      rewrite !elem_of_cons; tauto.
Qed.

End RecipeProperties.

(** * The definitions at work *)

Section Runs.
#[local] Existing Instance accepting_engine.
#[local] Existing Instance no_files.

(** ** Validation of the decoding method *)

(** The message of the error names the option and the method given. *)
Example from_transducer_greedy_hotwords_message :
  from_transducer transducer_greedy_hotwords empty_world
  = (inl (ValueError
            ("Please use --decoding-method=modified_beam_search when using "
             ++ "--hotwords-file. Currently given: greedy_search")),
     empty_world).
Proof. reflexivity. Qed.

(** The same call with [hotwords_file=""]: the engine is asked, and the
    recognizer carries the configuration. *)
Example from_transducer_greedy_succeeds :
  exists self w,
    from_transducer
      (Transducer.defaults "encoder.onnx" "decoder.onnx" "joiner.onnx"
         "tokens.txt") empty_world = (inr self, w)
    /\ engine_calls w = [NewRecognizer (config self)]
    /\ OfflineRecognizerConfig.hotwords_file (config self) = Some "".
Proof.
  do 2 eexists. split; [cbv; reflexivity |]. split; reflexivity.
Qed.

Lemma hotwords_and_lm_need_modified_beam_search_witness :
  decoding_method_of FromTransducer transducer_greedy_hotwords
    <> "modified_beam_search"
  /\ hotwords_file_of FromTransducer transducer_greedy_hotwords
     = Some "hw.txt"
  /\ exists msg,
       construct FromTransducer transducer_greedy_hotwords empty_world
       = (inl (ValueError msg), empty_world).
Proof.
  split; [discriminate |]. split; [reflexivity |].
  apply hotwords_and_lm_need_modified_beam_search; [discriminate |].
  left. exists "hw.txt". split; [reflexivity | discriminate].
Defined.

(** C9, as the claim has it, fails: [from_whisper] with
    [decoding_method="no_such_method"] raises nothing; the constructor of
    the engine is called with the method, and a recognizer is made. *)
Lemma unrecognized_method_allocates_engine :
  recognized_method (Whisper.decoding_method whisper_no_such_method) = false
  /\ exists self,
       (construct FromWhisper whisper_no_such_method empty_world).1
       = inr self
       /\ new_calls (construct FromWhisper whisper_no_such_method)
            empty_world
          = [NewRecognizer (config self)]
       /\ OfflineRecognizerConfig.decoding_method (config self)
          = "no_such_method".
Proof.
  split; [reflexivity |]. eexists.
  split; [cbv; reflexivity |]. split; reflexivity.
Qed.

Lemma configuration_error_precedes_engine_witness :
  let msg :=
    "Please use --decoding-method=modified_beam_search when using "
    ++ "--hotwords-file. Currently given: greedy_search" in
  (construct FromTransducer transducer_greedy_hotwords empty_world).1
    = inl (ValueError msg)
  /\ (construct FromTransducer transducer_greedy_hotwords empty_world).2
     = empty_world
  /\ new_calls (construct FromTransducer transducer_greedy_hotwords)
       empty_world = []
  /\ decoding_conflict FromTransducer transducer_greedy_hotwords = true.
Proof.
  intros msg. split; [reflexivity |].
  apply (configuration_error_precedes_engine FromTransducer
           transducer_greedy_hotwords empty_world msg).
  reflexivity.
Defined.

(** C5, as the claim has it, fails: [from_transducer] with
    [decoding_method="beam_search"] returns a recognizer; the method is in
    the configuration that the engine was given. *)
Lemma unrecognized_method_is_accepted :
  recognized_method (Transducer.decoding_method transducer_beam_search)
    = false
  /\ exists self w,
       from_transducer transducer_beam_search empty_world = (inr self, w)
       /\ engine_calls w = [NewRecognizer (config self)]
       /\ OfflineRecognizerConfig.decoding_method (config self)
          = "beam_search".
Proof.
  split; [reflexivity |]. do 2 eexists.
  split; [cbv; reflexivity |]. split; reflexivity.
Qed.

Lemma decoding_method_is_handed_on_witness :
  recognized_method "beam_search" = false
  /\ decoding_conflict FromTransducer transducer_beam_search = false
  /\ exists cfg,
       construct FromTransducer transducer_beam_search empty_world
       = hand_over cfg empty_world
       /\ new_calls (construct FromTransducer transducer_beam_search)
            empty_world = [NewRecognizer cfg]
       /\ OfflineRecognizerConfig.decoding_method cfg = "beam_search"
       /\ recognized_method (OfflineRecognizerConfig.decoding_method cfg)
          = false.
Proof.
  split; [reflexivity |]. split; [reflexivity |].
  apply (decoding_method_is_handed_on FromTransducer transducer_beam_search
           empty_world); reflexivity.
Defined.

(** ** The token table *)

(** C4, as the claim has it, fails: in a file system without files,
    [from_paraformer] with [tokens="no-such-tokens.txt"] calls the
    constructor of the engine with that path, and returns a recognizer. *)
Lemma missing_tokens_reach_engine :
  let a := Paraformer.defaults "model.onnx" "no-such-tokens.txt" in
  is_file (Paraformer.tokens a) = false
  /\ exists self w,
       from_paraformer a empty_world = (inr self, w)
       /\ engine_calls w = [NewRecognizer (config self)]
       /\ OfflineModelConfig.tokens
            (OfflineRecognizerConfig.model_config (config self))
          = "no-such-tokens.txt".
Proof.
  split; [reflexivity |]. do 2 eexists.
  split; [cbv; reflexivity |]. split; reflexivity.
Qed.

Lemma tokens_path_is_not_checked_witness :
  let a := WenetCtc.defaults "model.onnx" "no-such-tokens.txt" in
  is_file "no-such-tokens.txt" = false
  /\ decoding_conflict FromWenetCtc a = false
  /\ (exists msg,
     _assert_file_exists "no-such-tokens.txt" empty_world
     = (inl (AssertionError msg), empty_world))
  /\ exists cfg,
       construct FromWenetCtc a empty_world = hand_over cfg empty_world
       /\ new_calls (construct FromWenetCtc a) empty_world
          = [NewRecognizer cfg]
       /\ OfflineModelConfig.tokens
            (OfflineRecognizerConfig.model_config cfg)
          = "no-such-tokens.txt".
Proof.
  split; [reflexivity |]. split; [reflexivity |].
  apply (tokens_path_is_not_checked FromWenetCtc
           (WenetCtc.defaults "model.onnx" "no-such-tokens.txt")
           empty_world); reflexivity.
Defined.

(** ** The model configuration *)

(** C2, as the claim has it, fails twice.  The model configuration that
    [from_sense_voice] builds has no [model_type], so that its label is not
    the one of the recipe; and the one that [from_paraformer] builds from
    the empty string as the path of the model has a payload that is empty,
    so that no payload of it is non-empty. *)
Lemma label_or_payload_can_be_missing :
  (exists self w,
     from_sense_voice (SenseVoice.defaults "model.onnx" "tokens.txt")
       empty_world = (inr self, w)
     /\ engine_calls w = [NewRecognizer (config self)]
     /\ OfflineModelConfig.model_type
          (OfflineRecognizerConfig.model_config (config self))
        = None
     /\ OfflineModelConfig.model_type
          (OfflineRecognizerConfig.model_config (config self))
        <> Some (architecture_label FromSenseVoice))
  /\ (exists self w,
        from_paraformer paraformer_without_model empty_world = (inr self, w)
        /\ engine_calls w = [NewRecognizer (config self)]
        /\ OfflineModelConfig.paraformer
             (OfflineRecognizerConfig.model_config (config self))
           = Some {| OfflineParaformerModelConfig.model := "" |}
        /\ nonempty_payloads
             (OfflineRecognizerConfig.model_config (config self))
           = []).
Proof.
  split; do 2 eexists.
  - split; [cbv; reflexivity |]. split; [reflexivity |].
    split; [reflexivity | discriminate].
  - split; [cbv; reflexivity |]. split; [reflexivity |].
    split; reflexivity.
Qed.

Lemma one_payload_and_its_label_witness :
  let a := Paraformer.defaults "model.onnx" "tokens.txt" in
  decoding_conflict FromParaformer a = false
  /\ exists cfg,
       construct FromParaformer a empty_world = hand_over cfg empty_world
       /\ supplied_payloads (OfflineRecognizerConfig.model_config cfg)
          = [PParaformer]
       /\ OfflineModelConfig.paraformer
            (OfflineRecognizerConfig.model_config cfg)
          = Some {| OfflineParaformerModelConfig.model := "model.onnx" |}
       /\ nonempty_payloads (OfflineRecognizerConfig.model_config cfg)
          = [PParaformer]
       /\ OfflineModelConfig.model_type
            (OfflineRecognizerConfig.model_config cfg) = Some "paraformer".
Proof.
  split; [reflexivity |].
  apply (one_payload_and_its_label FromParaformer
           (Paraformer.defaults "model.onnx" "tokens.txt") empty_world).
  reflexivity.
Defined.

(** ** Feature extraction parameters *)

(** C3, as the claim has it, fails: the recognizer that
    [from_telespeech_ctc] returns for the default arguments has the sample
    rate 16000 and the feature dimension 40, and for [sample_rate=8000],
    [feature_dim=23] it has these. *)
Lemma telespeech_features_are_not_forced :
  (exists self w,
     from_telespeech_ctc (TelespeechCtc.defaults "model.onnx" "tokens.txt")
       empty_world = (inr self, w)
     /\ feature_pair (config self) = (16000, 40)%Z
     /\ feature_pair (config self) <> (40, 40)%Z)
  /\ (exists self w,
        from_telespeech_ctc
          (TelespeechCtc.mk "model.onnx" "tokens.txt" 1 8000 23
             "greedy_search" false "cpu" "" "")
          empty_world = (inr self, w)
        /\ feature_pair (config self) = (8000, 23)%Z).
Proof.
  split; do 2 eexists.
  - split; [cbv; reflexivity |]. split; [reflexivity | discriminate].
  - split; [cbv; reflexivity | reflexivity].
Qed.

End Runs.

(** * More runs *)

Section MoreRuns.
#[local] Existing Instance accepting_engine.

Lemma recognizer_holds_engine_config_witness :
  let a := Paraformer.defaults "model.onnx" "tokens.txt" in
  construct FromParaformer a empty_world
  = (inr paraformer_recognizer,
     log (NewRecognizer paraformer_config) empty_world)
  /\ engine_new (config paraformer_recognizer)
     = inr (recognizer paraformer_recognizer)
  /\ log (NewRecognizer paraformer_config) empty_world
     = log (NewRecognizer (config paraformer_recognizer)) empty_world
  /\ assembled_from FromParaformer a (config paraformer_recognizer).
Proof.
  intros a. split; [reflexivity |].
  apply (recognizer_holds_engine_config FromParaformer a empty_world).
  reflexivity.
Defined.

Lemma other_recipes_pass_no_policy_witness :
  FromSenseVoice <> FromTransducer
  /\ exists cfg,
       construct FromSenseVoice sense_voice_with_rules empty_world
       = hand_over cfg empty_world
       /\ OfflineRecognizerConfig.decoding_method cfg
          = "modified_beam_search"
       /\ no_policy_keywords cfg.
Proof.
  split; [discriminate |].
  apply (other_recipes_pass_no_policy FromSenseVoice sense_voice_with_rules
           empty_world).
  discriminate.
Defined.

Lemma transducer_policy_is_handed_on_witness :
  Forall fits_int (int_args_of FromTransducer transducer_beam_hotwords_lm)
  /\ decoding_conflict FromTransducer transducer_beam_hotwords_lm = false
  /\ exists cfg lmc,
       from_transducer transducer_beam_hotwords_lm empty_world
       = hand_over cfg empty_world
       /\ OfflineRecognizerConfig.lm_config cfg = Some lmc
       /\ OfflineLMConfig.model lmc = "lm.onnx"
       /\ OfflineLMConfig.lm_num_threads lmc = 2%Z
       /\ fits_int (OfflineLMConfig.lm_num_threads lmc)
       /\ OfflineLMConfig.lm_num_threads lmc
          = OfflineModelConfig.num_threads
              (OfflineRecognizerConfig.model_config cfg)
       /\ OfflineLMConfig.lm_provider lmc = "cuda"
       /\ OfflineLMConfig.lm_provider lmc
          = OfflineModelConfig.provider
              (OfflineRecognizerConfig.model_config cfg)
       /\ transducer_policy transducer_beam_hotwords_lm cfg.
Proof.
  assert (Forall fits_int
            (int_args_of FromTransducer transducer_beam_hotwords_lm))
    as Hfit by (repeat constructor; unfold fits_int; cbn; lia).
  split; [exact Hfit |]. split; [reflexivity |].
  apply (transducer_policy_is_handed_on transducer_beam_hotwords_lm
           empty_world Hfit).
  reflexivity.
Defined.

Lemma conflict_message_names_the_option_witness :
  decoding_conflict FromTransducer transducer_greedy_hotwords_lm = true
  /\ from_transducer transducer_greedy_hotwords_lm empty_world
     = (inl (ValueError
               ("Please use --decoding-method=modified_beam_search when "
                ++ "using --hotwords-file. Currently given: greedy_search")),
        empty_world).
Proof.
  split; [reflexivity |].
  apply (conflict_message_names_the_option transducer_greedy_hotwords_lm
           empty_world).
  reflexivity.
Defined.

(** With a language model only, the message names [--lm]. *)
Example from_transducer_greedy_lm_message :
  from_transducer transducer_greedy_lm empty_world
  = (inl (ValueError
            ("Please use --decoding-method=modified_beam_search when using "
             ++ "--lm. Currently given: greedy_search")),
     empty_world).
Proof. reflexivity. Qed.

Lemma modified_beam_search_always_passes_witness :
  decoding_method_of FromTransducer transducer_beam_hotwords_lm
    = "modified_beam_search"
  /\ exists cfg,
       construct FromTransducer transducer_beam_hotwords_lm empty_world
       = hand_over cfg empty_world
       /\ new_calls (construct FromTransducer transducer_beam_hotwords_lm)
            empty_world = [NewRecognizer cfg]
       /\ OfflineRecognizerConfig.decoding_method cfg
          = "modified_beam_search".
Proof.
  split; [reflexivity |].
  apply (modified_beam_search_always_passes FromTransducer
           transducer_beam_hotwords_lm empty_world).
  reflexivity.
Defined.

Lemma shared_parameters_are_handed_on_witness :
  decoding_conflict FromSenseVoice sense_voice_with_rules = false
  /\ exists cfg,
       construct FromSenseVoice sense_voice_with_rules empty_world
       = hand_over cfg empty_world
       /\ new_calls (construct FromSenseVoice sense_voice_with_rules)
            empty_world = [NewRecognizer cfg]
       /\ OfflineModelConfig.num_threads
            (OfflineRecognizerConfig.model_config cfg) = 4%Z
       /\ OfflineModelConfig.debug
            (OfflineRecognizerConfig.model_config cfg) = true
       /\ OfflineModelConfig.provider
            (OfflineRecognizerConfig.model_config cfg) = "coreml"
       /\ OfflineRecognizerConfig.rule_fsts cfg
          = "itn_zh_number.fst,itn_zh_date.fst"
       /\ OfflineRecognizerConfig.rule_fars cfg = "itn.far".
Proof.
  split; [reflexivity |].
  apply (shared_parameters_are_handed_on FromSenseVoice
           sense_voice_with_rules empty_world).
  reflexivity.
Defined.

Lemma feature_parameters_are_handed_on_witness :
  feature_args_of FromTdnnCtc tdnn_odd_features = Some (0, -5)%Z
  /\ Forall fits_int (int_args_of FromTdnnCtc tdnn_odd_features)
  /\ decoding_conflict FromTdnnCtc tdnn_odd_features = false
  /\ exists cfg,
       construct FromTdnnCtc tdnn_odd_features empty_world
       = hand_over cfg empty_world
       /\ new_calls (construct FromTdnnCtc tdnn_odd_features) empty_world
          = [NewRecognizer cfg]
       /\ feature_pair cfg = (0, -5)%Z
       /\ fits_int 0 /\ fits_int (-5).
Proof.
  assert (Forall fits_int (int_args_of FromTdnnCtc tdnn_odd_features))
    as Hfit by (repeat constructor; unfold fits_int; cbn; lia).
  split; [reflexivity |]. split; [exact Hfit |]. split; [reflexivity |].
  apply (feature_parameters_are_handed_on FromTdnnCtc tdnn_odd_features
           empty_world (0, -5)%Z); [reflexivity | exact Hfit | reflexivity].
Defined.

End MoreRuns.

Section RefusedRuns.
#[local] Existing Instance checking_engine.

Lemma engine_error_is_passed_on_witness :
  let out := construct FromWhisper whisper_no_such_method empty_world in
  out.1 = inl (EngineError "unsupported decoding method")
  /\ exists cfg,
       engine_new cfg = inl "unsupported decoding method"
       /\ out.2 = log (NewRecognizer cfg) empty_world
       /\ assembled_from FromWhisper whisper_no_such_method cfg.
Proof.
  intros out. split; [reflexivity |].
  apply (engine_error_is_passed_on FromWhisper whisper_no_such_method
           empty_world out.2 "unsupported decoding method").
  reflexivity.
Defined.

End RefusedRuns.
